(** * TR-181 data-model converter: schema resolution engine

    A shallow embedding of [xml-to-excel-converter-3.py] and the
    properties of its path normaliser, type-signature renderer, dataType
    chain resolver, template and reference resolvers and parameter
    extractor.

    Conventions of the embedding.
    - A Python [str] is a [string]; a character is read as the Unicode
      code point of the same number (U+0000 to U+00FF).  [str.lower],
      [str.isspace] and the regular-expression class [\s] are modelled on
      that range, where [str.lower] acts on each character by itself.
      Beyond it [str.lower] looks at the neighbours of a character (a
      capital sigma, U+03A3, at the end of a word), so that lowering and
      removing characters need not commute there.
    - An [xml.etree.ElementTree.Element] is an [Elem]: tag, attributes,
      text, tail and children.
    - The [references] dictionary, looked up by key only, is a
      [gmap string string]; the documentation index and the [templates]
      dictionary, which the code also iterates, are association lists in
      insertion order; the [visited] set is a [gset string].
    - A Python recursion that the code does not bound takes a recursion
      budget and yields [RecursionError] when the budget is used up. *)

From Stdlib Require Import Ascii NArith.
From stdpp Require Import gmap strings list fin_maps.

Local Open Scope N_scope.
Local Open Scope nat_scope.

(** ** Python string primitives *)

Module Py.

(** [str.lower] on one character: A-Z and the upper-case letters of
    U+00C0..U+00DE (the multiplication sign U+00D7 apart) move by 32. *)
Definition lower_char (c : ascii) : ascii :=
  let n := N_of_ascii c in
  if (((65 <=? n) && (n <=? 90)) ||
      ((192 <=? n) && (n <=? 222) && negb (n =? 215)))%N
  then ascii_of_N (n + 32) else c.

(** [str.isspace] on one character; also the class [\s] of [re]. *)
Definition is_space (c : ascii) : bool :=
  let n := N_of_ascii c in
  (((9 <=? n) && (n <=? 13)) || ((28 <=? n) && (n <=? 32)) ||
   (n =? 133) || (n =? 160))%N.

Definition is_char (a : ascii) (c : ascii) : bool := bool_decide (c = a).

Fixpoint lower (s : string) : string :=
  match s with
  | EmptyString => EmptyString
  | String c r => String (lower_char c) (lower r)
  end.

Fixpoint startswith (p s : string) : bool :=
  match p, s with
  | EmptyString, _ => true
  | String a p', String b s' => bool_decide (a = b) && startswith p' s'
  | String _ _, EmptyString => false
  end.

(** [s.replace(old, new)] for a non-empty [old]: occurrences are taken
    left to right and do not overlap.  [skip] counts the characters of
    the occurrence just replaced that are still to be dropped. *)
Fixpoint replace_from (old new : string) (skip : nat) (s : string) : string :=
  match s with
  | EmptyString => EmptyString
  | String c r =>
      match skip with
      | S k => replace_from old new k r
      | O =>
          if startswith old s
          then new +:+ replace_from old new (String.length old - 1) r
          else String c (replace_from old new 0 r)
      end
  end.

Definition replace (old new s : string) : string := replace_from old new 0 s.

(** [s.lstrip(chars)], [s.rstrip(chars)], [s.strip(chars)], the set of
    characters given as a predicate. *)
Fixpoint lstrip_by (p : ascii -> bool) (s : string) : string :=
  match s with
  | EmptyString => EmptyString
  | String c r => if p c then lstrip_by p r else s
  end.

Fixpoint rstrip_by (p : ascii -> bool) (s : string) : string :=
  match s with
  | EmptyString => EmptyString
  | String c r =>
      match rstrip_by p r with
      | EmptyString => if p c then EmptyString else String c EmptyString
      | r' => String c r'
      end
  end.

Definition strip_by (p : ascii -> bool) (s : string) : string :=
  rstrip_by p (lstrip_by p s).

(** [s.strip()] *)
Definition strip (s : string) : string := strip_by is_space s.

(** Truth value of a [str] and of an [Optional[str]]. *)
Definition truthy (s : string) : bool :=
  match s with EmptyString => false | _ => true end.

Definition truthy_opt (o : option string) : bool :=
  match o with Some s => truthy s | None => false end.


(** [old in s] *)
Fixpoint contains (sub s : string) : bool :=
  startswith sub s ||
  match s with
  | EmptyString => false
  | String _ r => contains sub r
  end.

(** [s.endswith(suf)] *)
Fixpoint endswith (suf s : string) : bool :=
  bool_decide (s = suf) ||
  match s with
  | EmptyString => false
  | String _ r => endswith suf r
  end.

Fixpoint has_char (a : ascii) (s : string) : bool :=
  match s with
  | EmptyString => false
  | String c r => bool_decide (c = a) || has_char a r
  end.

(** [s.split(sep)[-1]] for a one-character [sep]. *)
Fixpoint last_segment (sep : ascii) (s : string) : string :=
  match s with
  | EmptyString => EmptyString
  | String c r =>
      if has_char sep r then last_segment sep r
      else if bool_decide (c = sep) then r else s
  end.

(** [s.split(sep, 1)[1]] when [sep] occurs in [s]; [None] stands for the
    [IndexError] of a one-element split. *)
Fixpoint after_first (sep : ascii) (s : string) : option string :=
  match s with
  | EmptyString => None
  | String c r => if bool_decide (c = sep) then Some r else after_first sep r
  end.

(** [sep.join(l)] *)
Fixpoint join (sep : string) (l : list string) : string :=
  match l with
  | [] => EmptyString
  | [x] => x
  | x :: r => x +:+ sep +:+ join sep r
  end.

Definition nonempty {A} (l : list A) : bool :=
  match l with [] => false | _ => true end.

(** [x in l] for a list of strings. *)
Definition in_list (x : string) (l : list string) : bool :=
  bool_decide (x ∈ l).

(** [re.sub(r'\s+', ' ', s)]: [in_ws] tells that the run of white space
    being read has been replaced already. *)
Fixpoint collapse_ws (in_ws : bool) (s : string) : string :=
  match s with
  | EmptyString => EmptyString
  | String c r =>
      if is_space c
      then (if in_ws then collapse_ws true r else String " " (collapse_ws true r))
      else String c (collapse_ws false r)
  end.

(** The group of [\{\{(.*?)\}\}] once the opening braces are read: the
    shortest run without a line feed that is followed by two closing
    braces. *)
Fixpoint macro_body (s : string) : option string :=
  if startswith "}}" s then Some EmptyString
  else match s with
       | EmptyString => None
       | String c r =>
           if bool_decide (c = "010"%char) then None
           else String c <$> macro_body r
       end.

(** [re.sub(r"\{\{(.*?)\}\}", f, s)], [f] applied to the group. *)
Fixpoint sub_macros (f : string -> string) (skip : nat) (s : string) : string :=
  match s with
  | EmptyString => EmptyString
  | String c r =>
      match skip with
      | S k => sub_macros f k r
      | O =>
          match (if startswith "{{" s
                 then match r with
                      | String _ r2 => macro_body r2
                      | EmptyString => None
                      end
                 else None) with
          | Some g => f g +:+ sub_macros f (String.length g + 3) r
          | None => String c (sub_macros f 0 r)
          end
      end
  end.

End Py.

(** ** The element tree *)

Module ET.

#[warnings="-register-all"]
Inductive Elem : Type :=
  mkElem (tag : string) (attrib : gmap string string)
         (text tail : option string) (children : list Elem).

Definition tag (e : Elem) : string := let 'mkElem t _ _ _ _ := e in t.
Definition attrib (e : Elem) : gmap string string := let 'mkElem _ a _ _ _ := e in a.
Definition text (e : Elem) : option string := let 'mkElem _ _ t _ _ := e in t.
Definition tail (e : Elem) : option string := let 'mkElem _ _ _ t _ := e in t.
Definition children (e : Elem) : list Elem := let 'mkElem _ _ _ _ c := e in c.

(** [elem.get(key)] and [elem.get(key, '')] *)
Definition get (e : Elem) (key : string) : option string := attrib e !! key.
Definition get_or_empty (e : Elem) (key : string) : string := default "" (get e key).

(** All proper descendants in document order. *)
Fixpoint descendants (e : Elem) : list Elem :=
  match e with
  | mkElem _ _ _ _ cs =>
      (fix go (l : list Elem) : list Elem :=
         match l with
         | [] => []
         | c :: l' => c :: descendants c ++ go l'
         end) cs
  end.

(** [elem.iter()] *)
Definition iter (e : Elem) : list Elem := e :: descendants e.

Definition has_tag (t : string) (e : Elem) : bool := bool_decide (tag e = t).

(** [elem.findall(t)] and [elem.find(t)]: direct children, tag compared as is. *)
Definition findall (t : string) (e : Elem) : list Elem :=
  List.filter (has_tag t) (children e).
Definition find (t : string) (e : Elem) : option Elem := head (findall t e).

(** [elem.findall(".//" + t)] and [elem.find(".//" + t)] *)
Definition findall_desc (t : string) (e : Elem) : list Elem :=
  List.filter (has_tag t) (descendants e).
Definition find_desc (t : string) (e : Elem) : option Elem := head (findall_desc t e).

Definition opt_text (o : option string) : list string :=
  match o with
  | Some s => if Py.truthy s then [s] else []
  | None => []
  end.

(** [elem.itertext()] *)
Fixpoint itertext (e : Elem) : list string :=
  match e with
  | mkElem _ _ t _ cs =>
      opt_text t ++
      (fix go (l : list Elem) : list string :=
         match l with
         | [] => []
         | c :: l' => itertext c ++ opt_text (tail c) ++ go l'
         end) cs
  end.

(** [elem.tag.lower().split('}')[-1]]: the tag without its namespace, in
    lower case. *)
Definition local_name (e : Elem) : string :=
  Py.last_segment "}" (Py.lower (tag e)).

End ET.

Import ET.


(** ** Recursion budget *)

(** Outcome of a call that recurses: a value, or Python's [RecursionError]
    when the call needs more nested frames than the budget allows. *)
Inductive result (A : Type) : Type :=
| Ok (a : A)
| RecursionError.

Arguments Ok {A} a.
Arguments RecursionError {A}.

Definition bind {A B} (r : result A) (k : A -> result B) : result B :=
  match r with
  | Ok a => k a
  | RecursionError => RecursionError
  end.

Notation "x <<- r ;; k" := (bind r (fun x => k))
  (at level 100, r at next level, right associativity).

(** ** Type signature renderer and dataType chain resolver *)

(** One [<size>] or [<range>] entry: ["min:max"], ["min:"], ["max"], or
    nothing when both bounds are absent or empty. *)
Definition bounds_part (lo hi : option string) : option string :=
  if Py.truthy_opt lo && Py.truthy_opt hi
  then Some (default "" lo +:+ ":" +:+ default "" hi)
  else if Py.truthy_opt lo then Some (default "" lo +:+ ":")
  else if Py.truthy_opt hi then Some (default "" hi)
  else None.

Definition size_part (size_elem : Elem) : option string :=
  bounds_part (get size_elem "minLength") (get size_elem "maxLength").

Definition range_part (range_elem : Elem) : option string :=
  bounds_part (get range_elem "minInclusive") (get range_elem "maxInclusive").

(** The list [size_ranges] built from the [<size>] children and the first
    [<range>] child of [elem]. *)
Definition size_ranges_of (elem : Elem) : list string :=
  omap size_part (findall "size" elem) ++
  match find "range" elem with
  | Some range_elem => option_list (range_part range_elem)
  | None => []
  end.

(** [size_range_str] for the kind [tag_name_norm]. *)
Definition size_range_str_of (tag_name_norm : string) (size_ranges : list string) : string :=
  if Py.nonempty size_ranges
  then (if Py.in_list tag_name_norm ["int"; "long"; "unsignedint"]
        then "[" +:+ Py.join ", " size_ranges +:+ "]"
        else "(" +:+ Py.join ", " size_ranges +:+ ")")
  else "".

(** [[e.get("value") for e in elem.findall("enumeration") if e.get("value") is not None]] *)
Definition enum_values_of (elem : Elem) : list string :=
  omap (fun e => get e "value") (findall "enumeration" elem).

Definition all_children_enumeration (elem : Elem) : bool :=
  forallb (fun child => bool_decide (local_name child = "enumeration")) (children elem).

Definition extract_type_info (elem : Elem) : string :=
  let tag_name_norm := local_name elem in
  let size_ranges := size_ranges_of elem in
  let size_range_str := size_range_str_of tag_name_norm size_ranges in
  let enum_values := enum_values_of elem in
  let enum_str := Py.join "," enum_values in
  let '(base, enum_values) :=
    if Py.nonempty enum_values
    then (if bool_decide (tag_name_norm = "string") && all_children_enumeration elem
          then ("string", [])
          else ("enum", enum_values))
    else (tag_name_norm, enum_values) in
  let type_str := if Py.nonempty size_ranges then base +:+ size_range_str else base in
  if Py.nonempty enum_values then type_str +:+ "[" +:+ enum_str +:+ "]" else type_str.

(** [xml_root.findall(".//dataType")] and the first definition of a name. *)
Definition dataTypes (xml_root : Elem) : list Elem := findall_desc "dataType" xml_root.

Definition find_dataType (xml_root : Elem) (name : string) : option Elem :=
  head (List.filter (fun dt => bool_decide (get dt "name" = Some name)) (dataTypes xml_root)).

(** The first child, [<description>] apart, whose rendering is not empty. *)
Definition first_child_type (elem : Elem) : option string :=
  head (List.filter Py.truthy
          (map extract_type_info
             (List.filter (fun child => negb (Py.in_list (local_name child) ["description"]))
                (children elem)))).

Definition primitive_tags : list string :=
  ["string"; "int"; "unsignedInt"; "unsignedLong"; "hexBinary"; "dateTime"; "boolean"; "list"].

(** The first primitive tag, in the order of [primitive_tags], that occurs
    below [elem] and whose first occurrence renders to a non-empty string. *)
Definition first_primitive_below (elem : Elem) : option string :=
  head (List.filter Py.truthy
          (omap (fun tag => extract_type_info <$> find_desc tag elem) primitive_tags)).

(** The part of [walk_base_chain] that looks at [elem] alone. *)
Definition local_type (elem : Elem) : option string :=
  match first_child_type elem with
  | Some type_info => Some type_info
  | None =>
      match first_primitive_below elem with
      | Some type_info => Some type_info
      | None =>
          if Py.nonempty (findall "enumeration" elem)
          then Some ("enum[" +:+ Py.join "," (enum_values_of elem) +:+ "]")
          else
            let tag_name_norm := local_name elem in
            let size_range_str := size_range_str_of tag_name_norm (size_ranges_of elem) in
            if Py.truthy size_range_str
            then Some (tag_name_norm +:+ size_range_str)
            else None
      end
  end.

(** [walk_base_chain(elem, xml_root, visited)]; every call takes one unit
    of [budget]. *)
Fixpoint walk_base_chain (budget : nat) (elem : Elem) (xml_root : Elem)
    (visited : gset string) : result (option string) :=
  match budget with
  | O => RecursionError
  | S budget' =>
      match local_type elem with
      | Some type_info => Ok (Some type_info)
      | None =>
          match get elem "base" with
          | Some base =>
              if Py.truthy base && bool_decide (base ∉ visited)
              then match find_dataType xml_root base with
                   | Some parent_elem =>
                       walk_base_chain budget' parent_elem xml_root ({[base]} ∪ visited)
                   | None => Ok None
                   end
              else Ok None
          | None => Ok None
          end
      end
  end.

(** [resolve_datatype_reference(datatype_name, xml_root, visited)];
    [visited = None] is the default argument. *)
Definition resolve_datatype_reference (budget : nat) (datatype_name : string)
    (xml_root : Elem) (visited : option (gset string)) : result (option string) :=
  let visited := default ∅ visited in
  if bool_decide (datatype_name ∈ visited) then Ok None
  else
    let visited := {[datatype_name]} ∪ visited in
    match find_dataType xml_root datatype_name with
    | None => Ok None
    | Some dt_elem =>
        resolved_type <<- walk_base_chain budget dt_elem xml_root visited ;;
        match resolved_type with
        | Some t => if Py.truthy t then Ok (Some t) else Ok (first_child_type dt_elem)
        | None => Ok (first_child_type dt_elem)
        end
    end.

(** ** Path normaliser *)

Definition normalize_path (path : string) : string :=
  Py.strip_by (Py.is_char ".") (Py.replace " " "" (Py.lower path)).

(** ** Macro substitution and text cleaning *)

(** [macro_replacer] of [substitute_macros], applied to the group of the
    match. *)
Definition macro_replacer (param_name object_path : string) (group : string) : string :=
  let macro := Py.strip group in
  if bool_decide (macro = "numentries") then
    if Py.truthy param_name && Py.endswith "NumberOfEntries" param_name
    then
      let table := Py.replace "NumberOfEntries" "" param_name in
      let full_table := if Py.truthy object_path then object_path +:+ table else table in
      "The number of entries in the " +:+ full_table +:+ " table."
    else "The number of entries."
  else if bool_decide (macro = "empty") then "an empty string"
  else if bool_decide (macro = "pattern") then "a valid value matching the required pattern"
  else if Py.in_list macro ["reference"; "referenceName"; "noreference"] then ""
  else if Py.startswith "param|" macro || Py.startswith "object|" macro
          || Py.startswith "bibref|" macro
  then default "" (Py.after_first "|" macro)
  else if Py.startswith "reference|" macro
  then
    let content := default "" (Py.after_first "|" macro) in
    Py.replace "{{object}}"
      (if Py.truthy object_path then Py.rstrip_by (Py.is_char ".") object_path
       else "this object")
      content
  else "".

(** [substitute_macros(text, param_name, object_path)].  No call inside the
    [try] block can raise on strings, so its handler is never entered. *)
Definition substitute_macros (text param_name object_path : string) : string :=
  if negb (Py.truthy text) then ""
  else Py.strip (Py.sub_macros (macro_replacer param_name object_path) 0 text).

Definition clean_text (text : option string) : string :=
  match text with
  | None => ""
  | Some t => Py.strip (Py.collapse_ws false t)
  end.

(** ** Tables *)

(** A [dict] in insertion order. *)
Definition dict_get {V} (key : string) (d : list (string * V)) : option V :=
  snd <$> List.find (fun kv => bool_decide (kv.1 = key)) d.

(** [d[key] = v]: the value is replaced where the key stands, a new key
    goes last. *)
Fixpoint dict_set {V} (key : string) (v : V) (d : list (string * V)) : list (string * V) :=
  match d with
  | [] => [(key, v)]
  | (k, w) :: r => if bool_decide (k = key) then (k, v) :: r else (k, w) :: dict_set key v r
  end.

(** An entry of [templates], as [extract_template_data_from_xml] builds it. *)
Record Template : Type := mkTemplate {
  tpl_name : string;
  tpl_ref : string;
  tpl_template : string;
  tpl_description : string;
  tpl_data_type : string;
  tpl_default_value : string
}.

(** The dictionary that [extract_template_data] returns. *)
Record TemplateData : Type := mkTemplateData {
  description : string;
  data_type : string;
  default_value : string
}.

(** The dictionary that [resolve_reference] returns; it has no
    ['default_value'] key. *)
Record RefData : Type := mkRefData {
  ref_description : string;
  ref_data_type : string
}.

(** [param_data], one field per key. *)
Record ParamData : Type := mkParamData {
  Object_Name : string;
  Parameter_Name : string;
  Full_Path : string;
  Access : string;
  Version : string;
  Description : string;
  Data_Type : string;
  Object_Default : string;
  Is_Object : bool
}.

Definition set_Description (v : string) (p : ParamData) : ParamData :=
  mkParamData (Object_Name p) (Parameter_Name p) (Full_Path p) (Access p) (Version p)
    v (Data_Type p) (Object_Default p) (Is_Object p).

Definition set_Data_Type (v : string) (p : ParamData) : ParamData :=
  mkParamData (Object_Name p) (Parameter_Name p) (Full_Path p) (Access p) (Version p)
    (Description p) v (Object_Default p) (Is_Object p).

Definition set_Object_Default (v : string) (p : ParamData) : ParamData :=
  mkParamData (Object_Name p) (Parameter_Name p) (Full_Path p) (Access p) (Version p)
    (Description p) (Data_Type p) v (Is_Object p).

(** The dictionary that [extract_object_data] returns. *)
Record ObjectData : Type := mkObjectData {
  obj_Object_Name : string;
  obj_Access : string;
  obj_Min_Entries : string;
  obj_Max_Entries : string;
  obj_Version : string;
  obj_Description : string;
  obj_Is_Object : bool
}.

Inductive Row : Type :=
| ObjectRow (obj_data : ObjectData)
| ParamRow (param_data : ParamData).

(** ** Template and reference resolvers *)

Definition resolve_reference (ref_name : string) (references_dict : gmap string string)
    : option RefData :=
  match references_dict !! ref_name with
  | Some ref_data => Some (mkRefData ("Reference to: " +:+ ref_data) "")
  | None => None
  end.

(** [extract_template_data(template_name, templates_dict)]; every call
    takes one unit of [budget]. *)
Fixpoint extract_template_data (budget : nat) (template_name : string)
    (templates_dict : list (string * Template)) : result (option TemplateData) :=
  match budget with
  | O => RecursionError
  | S budget' =>
      match dict_get template_name templates_dict with
      | None => Ok None
      | Some template_data =>
          let data := mkTemplateData (tpl_description template_data)
                        (tpl_data_type template_data) (tpl_default_value template_data) in
          let parent_template := tpl_template template_data in
          if Py.truthy parent_template
          then
            parent <<- extract_template_data budget' parent_template templates_dict ;;
            match parent with
            | Some parent_data =>
                Ok (Some (mkTemplateData
                  (if negb (Py.truthy (description data)) && Py.truthy (description parent_data)
                   then description parent_data else description data)
                  (if negb (Py.truthy (data_type data)) && Py.truthy (data_type parent_data)
                   then data_type parent_data else data_type data)
                  (if negb (Py.truthy (default_value data)) && Py.truthy (default_value parent_data)
                   then default_value parent_data else default_value data)))
            | None => Ok (Some data)
            end
          else Ok (Some data)
      end
  end.

(** ** Parameter extractor *)

(** [type_elem.tag.split('}')[-1].lower()] *)
Definition local_name_lc (e : Elem) : string :=
  Py.lower (Py.last_segment "}" (tag e)).

(** ['description' in e.tag.lower()] and its like. *)
Definition tag_has (word : string) (e : Elem) : bool :=
  Py.contains word (Py.lower (tag e)).

Definition sentinel : string := "No HTML or XML description available".

(** The embedded description: the last [description] child decides. *)
Definition xml_description (param_elem : Elem) (name parent_object_name : string) : string :=
  match last (List.filter (tag_has "description") (children param_elem)) with
  | Some desc_elem =>
      let desc_text := String.concat "" (itertext desc_elem) in
      let desc_text := substitute_macros desc_text name parent_object_name in
      clean_text (Some desc_text)
  | None => sentinel
  end.

(** The description of a parameter before templates and references are
    looked at: documentation index first, exact then relaxed, then the
    embedded description. *)
Definition lookup_description (param_elem : Elem) (name parent_object_name full_path : string)
    (html_descriptions : list (string * string)) : string :=
  let normalized := normalize_path full_path in
  match dict_get normalized html_descriptions with
  | Some d => d
  | None =>
      let relaxed := Py.replace "{i}" "" normalized in
      match List.find (fun key => bool_decide (relaxed = Py.replace "{i}" "" key))
              (map fst html_descriptions) with
      | Some key => default "" (dict_get key html_descriptions)
      | None => xml_description param_elem name parent_object_name
      end
  end.

(** The loop that reads [<default>] children up to the first [<dataType>]
    child: the default value so far and [datatype_ref_found]. *)
Fixpoint scan_defaults (type_elems : list Elem) (object_default : string)
    : string * option string :=
  match type_elems with
  | [] => (object_default, None)
  | type_elem :: rest =>
      let tag_name := local_name_lc type_elem in
      if bool_decide (tag_name = "default") then
        match get type_elem "value" with
        | Some value => scan_defaults rest value
        | None =>
            if Py.truthy_opt (text type_elem)
            then scan_defaults rest (Py.strip (default "" (text type_elem)))
            else scan_defaults rest object_default
        end
      else if bool_decide (tag_name = "datatype") then (object_default, get type_elem "ref")
      else scan_defaults rest object_default
  end.

(** The local variables of the loop over the children of [<syntax>],
    with [param_data['Object Default']]. *)
Record SyntaxState : Type := mkSyntaxState {
  is_list : bool;
  st_data_type : string;
  formatted_type : string;
  size_elem : option Elem;
  range_elem : option Elem;
  st_default : string
}.

(** The [<value>] children of a type element. *)
Definition value_default (type_elem : Elem) (object_default : string) : string :=
  fold_left (fun od value_elem =>
               if tag_has "value" value_elem && Py.truthy_opt (text value_elem)
               then Py.strip (default "" (text value_elem)) else od)
    (children type_elem) object_default.

(** All [<size>] entries below a [hexBinary] element. *)
Definition hexbinary_type (e : Elem) : string :=
  let size_parts := omap size_part (findall_desc "size" e) in
  if Py.nonempty size_parts
  then "hexbinary(" +:+ Py.join ", " size_parts +:+ ")"
  else "hexbinary".

Definition syntax_step (st : SyntaxState) (type_elem : Elem) : SyntaxState :=
  let tag_name := local_name_lc type_elem in
  if bool_decide (tag_name = "default") then st
  else if bool_decide (tag_name = "list") then
    let size_elem := find_desc "size" type_elem in
    let range_elem := find_desc "range" type_elem in
    match head (List.filter (fun child => bool_decide (local_name_lc child = "hexbinary"))
                  (children type_elem)) with
    | Some list_type_elem =>
        mkSyntaxState true "hexbinary" (hexbinary_type list_type_elem)
          size_elem range_elem (st_default st)
    | None =>
        mkSyntaxState true (st_data_type st) (formatted_type st)
          size_elem range_elem (st_default st)
    end
  else if Py.in_list tag_name ["string"; "int"; "unsignedint"; "long"; "unsignedlong"] then
    mkSyntaxState (is_list st) tag_name (formatted_type st)
      (if is_list st then size_elem st else find_desc "size" type_elem)
      (if is_list st then range_elem st else find_desc "range" type_elem)
      (value_default type_elem (st_default st))
  else if bool_decide (tag_name = "hexbinary") then
    mkSyntaxState (is_list st) tag_name (hexbinary_type type_elem)
      (size_elem st) (range_elem st) (value_default type_elem (st_default st))
  else if negb (Py.in_list tag_name
                  ["list"; "string"; "int"; "unsignedint"; "long"; "unsignedlong";
                   "datatype"; "hexbinary"]) then
    mkSyntaxState (is_list st) tag_name tag_name
      (size_elem st) (range_elem st) (value_default type_elem (st_default st))
  else st.

(** A [string] with its first [<size>]. *)
Definition format_string (data_type : string) (size_elem : option Elem) : string :=
  match size_elem with
  | Some size_elem =>
      let min_len := get size_elem "minLength" in
      let max_len := get size_elem "maxLength" in
      if Py.truthy_opt min_len && Py.truthy_opt max_len
      then data_type +:+ "(" +:+ default "" min_len +:+ ":" +:+ default "" max_len +:+ ")"
      else if Py.truthy_opt max_len
      then data_type +:+ "(" +:+ default "" max_len +:+ ")"
      else data_type
  | None => data_type
  end.

(** A numeric kind with its [<range>], between [opening] and [closing]. *)
Definition format_range (opening closing data_type : string) (range_elem : Elem) : string :=
  let min_val := get range_elem "minInclusive" in
  let max_val := get range_elem "maxInclusive" in
  if Py.truthy_opt min_val && Py.truthy_opt max_val
  then data_type +:+ opening +:+ default "" min_val +:+ ":" +:+ default "" max_val +:+ closing
  else if Py.truthy_opt min_val
  then data_type +:+ opening +:+ default "" min_val +:+ ":" +:+ closing
  else if Py.truthy_opt max_val
  then data_type +:+ opening +:+ ":" +:+ default "" max_val +:+ closing
  else data_type.

(** The value given to [param_data['Data Type']] after the loop. *)
Definition finish_type (st : SyntaxState) : string :=
  let data_type := st_data_type st in
  let formatted_type :=
    if is_list st then
      if bool_decide (data_type = "string") then format_string data_type (size_elem st)
      else if Py.in_list data_type ["int"; "unsignedint"; "long"; "unsignedlong"] then
        match range_elem st with
        | Some range_elem =>
            if bool_decide (data_type = "unsignedint")
            then format_range "[" "]" data_type range_elem
            else format_range "(" ")" data_type range_elem
        | None => data_type
        end
      else if bool_decide (data_type = "hexbinary") then
        (if Py.truthy (formatted_type st) then formatted_type st else data_type)
      else data_type
    else
      if bool_decide (data_type = "string") then format_string data_type (size_elem st)
      else if Py.in_list data_type ["int"; "unsignedint"; "long"; "unsignedlong"] then
        match range_elem st with
        | Some range_elem =>
            if Py.in_list data_type ["int"; "long"; "unsignedint"]
            then format_range "[" "]" data_type range_elem
            else data_type
        | None => data_type
        end
      else if bool_decide (data_type = "hexbinary") then
        (if Py.truthy (formatted_type st) then formatted_type st else data_type)
      else (if Py.truthy (formatted_type st) then formatted_type st else data_type)
  in
  if Py.truthy formatted_type then formatted_type else data_type.

(** The inline rendering of one [<syntax>] block that names no dataType. *)
Definition inline_syntax (syntax_elem : Elem) (object_default : string) : SyntaxState :=
  fold_left syntax_step (children syntax_elem)
    (mkSyntaxState false "" "" None None object_default).

(** The body of the loop over the [syntax] children of a parameter. *)
Definition process_syntax (budget : nat) (xml_root : Elem) (param_data : ParamData)
    (syntax_elem : Elem) : result ParamData :=
  let '(object_default, datatype_ref_found) :=
    scan_defaults (children syntax_elem) (Object_Default param_data) in
  let param_data := set_Object_Default object_default param_data in
  if Py.truthy_opt datatype_ref_found then
    let datatype_ref_found := default "" datatype_ref_found in
    resolved_type <<- resolve_datatype_reference budget datatype_ref_found xml_root None ;;
    if Py.truthy_opt resolved_type
    then Ok (set_Data_Type (default "" resolved_type) param_data)
    else Ok (set_Data_Type ("ref(" +:+ datatype_ref_found +:+ ")") param_data)
  else
    let st := inline_syntax syntax_elem object_default in
    Ok (set_Data_Type (finish_type st) (set_Object_Default (st_default st) param_data)).

Fixpoint process_syntaxes (budget : nat) (xml_root : Elem) (syntax_elems : list Elem)
    (param_data : ParamData) : result ParamData :=
  match syntax_elems with
  | [] => Ok param_data
  | syntax_elem :: rest =>
      param_data <<- process_syntax budget xml_root param_data syntax_elem ;;
      process_syntaxes budget xml_root rest param_data
  end.

(** The overlay of a resolved template: only fields still empty are set. *)
Definition overlay_template (template_data : TemplateData) (param_data : ParamData) : ParamData :=
  let param_data :=
    if negb (Py.truthy (Description param_data)) && Py.truthy (description template_data)
    then set_Description (description template_data) param_data else param_data in
  let param_data :=
    if negb (Py.truthy (Data_Type param_data)) && Py.truthy (data_type template_data)
    then set_Data_Type (data_type template_data) param_data else param_data in
  if negb (Py.truthy (Object_Default param_data)) && Py.truthy (default_value template_data)
  then set_Object_Default (default_value template_data) param_data else param_data.

Definition apply_template (budget : nat) (template_ref : string)
    (templates_dict : list (string * Template)) (param_data : ParamData) : result ParamData :=
  if Py.truthy template_ref then
    template_data <<- extract_template_data budget template_ref templates_dict ;;
    match template_data with
    | Some template_data => Ok (overlay_template template_data param_data)
    | None => Ok param_data
    end
  else Ok param_data.

(** The overlay of a resolved reference; [ref_data] has no default value. *)
Definition overlay_reference (ref_data : RefData) (param_data : ParamData) : ParamData :=
  let param_data :=
    if negb (Py.truthy (Description param_data))
    then set_Description (ref_description ref_data) param_data else param_data in
  let param_data :=
    if negb (Py.truthy (Data_Type param_data))
    then set_Data_Type (ref_data_type ref_data) param_data else param_data in
  if negb (Py.truthy (Object_Default param_data))
  then set_Object_Default "" param_data else param_data.

Definition apply_reference (ref : string) (references_dict : gmap string string)
    (param_data : ParamData) : ParamData :=
  if Py.truthy ref then
    match resolve_reference ref references_dict with
    | Some ref_data => overlay_reference ref_data param_data
    | None => param_data
    end
  else param_data.

(** [param_data] once the description is looked up, before the syntax
    blocks are read. *)
Definition described_parameter (param_elem : Elem) (parent_object_name : string)
    (html_descriptions : list (string * string)) : ParamData :=
  let name := get_or_empty param_elem "name" in
  let access := get_or_empty param_elem "access" in
  let version := get_or_empty param_elem "version" in
  let full_path :=
    Py.rstrip_by (Py.is_char ".")
      (Py.strip_by (Py.is_char ".")
         (Py.replace " " ""
            (Py.rstrip_by (Py.is_char ".") parent_object_name +:+ "." +:+ name))) in
  mkParamData parent_object_name name full_path access version
    (lookup_description param_elem name parent_object_name full_path html_descriptions)
    "" "" false.

(** [param_data] once the syntax blocks are read, before templates and
    references are looked at. *)
Definition typed_parameter (budget : nat) (param_elem : Elem) (parent_object_name : string)
    (html_descriptions : list (string * string)) (xml_root : Elem) : result ParamData :=
  process_syntaxes budget xml_root
    (List.filter (tag_has "syntax") (children param_elem))
    (described_parameter param_elem parent_object_name html_descriptions).

Definition extract_parameter_data (budget : nat) (param_elem : Elem)
    (parent_object_name : string) (references_dict : gmap string string)
    (templates_dict : list (string * Template))
    (html_descriptions : list (string * string)) (xml_root : Elem) : result ParamData :=
  let ref := get_or_empty param_elem "ref" in
  let template_ref := get_or_empty param_elem "template" in
  param_data <<- typed_parameter budget param_elem parent_object_name html_descriptions xml_root ;;
  param_data <<- apply_template budget template_ref templates_dict param_data ;;
  Ok (apply_reference ref references_dict param_data).

(** ** Object extractor and the run over a document *)

Definition dm_description : string :=
  "{urn:broadband-forum-org:cwmp:datamodel-1-14}description".

Definition extract_object_data (obj_elem : Elem)
    (html_descriptions : list (string * string)) : ObjectData :=
  let name := get_or_empty obj_elem "name" in
  let access := get_or_empty obj_elem "access" in
  let min_entries := get_or_empty obj_elem "minEntries" in
  let max_entries := get_or_empty obj_elem "maxEntries" in
  let version := get_or_empty obj_elem "version" in
  let full_path := if Py.endswith "." name then name else name +:+ "." in
  let normalized := normalize_path full_path in
  let description :=
    match dict_get normalized html_descriptions with
    | Some d => d
    | None =>
        match find dm_description obj_elem with
        | Some desc_elem =>
            if Py.truthy_opt (text desc_elem) then clean_text (text desc_elem) else ""
        | None => ""
        end
    end in
  mkObjectData name access min_entries max_entries version description true.

(** The data type and default value read from one [syntax] child of a
    template: its first child decides. *)
Definition template_syntax (acc : string * string) (syntax_elem : Elem) : string * string :=
  match children syntax_elem with
  | [] => acc
  | type_elem :: _ =>
      let data_type := Py.last_segment "}" (tag type_elem) in
      let value := get_or_empty type_elem "value" in
      let default_value := if Py.truthy value then value else acc.2 in
      let default_value :=
        fold_left (fun dv value_elem =>
                     if tag_has "value" value_elem && Py.truthy_opt (text value_elem)
                     then default "" (text value_elem) else dv)
          (children type_elem) default_value in
      (data_type, default_value)
  end.

Definition extract_template_data_from_xml (template_elem : Elem) : Template :=
  let name := get_or_empty template_elem "name" in
  let ref := get_or_empty template_elem "ref" in
  let template := get_or_empty template_elem "template" in
  let description :=
    match head (List.filter (tag_has "description") (children template_elem)) with
    | Some desc_elem =>
        if Py.truthy_opt (text desc_elem) then clean_text (text desc_elem) else ""
    | None => ""
    end in
  let '(data_type, default_value) :=
    fold_left template_syntax
      (List.filter (tag_has "syntax") (children template_elem)) ("", "") in
  mkTemplate name ref template description data_type default_value.

(** First pass over the templates: [templates[name] = template_data]. *)
Definition collect_templates (templates_found : list Elem) : list (string * Template) :=
  fold_left (fun templates template =>
               let template_data := extract_template_data_from_xml template in
               if Py.truthy (tpl_name template_data)
               then dict_set (tpl_name template_data) template_data templates
               else templates)
    templates_found [].

(** Second pass: one step of inheritance, written into the entry itself,
    in the order of the dictionary. *)
Definition inherit_template (templates : list (string * Template)) (template_name : string)
    : list (string * Template) :=
  match dict_get template_name templates with
  | Some template_data =>
      if Py.truthy (tpl_template template_data) then
        match dict_get (tpl_template template_data) templates with
        | Some parent_data =>
            dict_set template_name
              (mkTemplate (tpl_name template_data) (tpl_ref template_data)
                 (tpl_template template_data)
                 (if negb (Py.truthy (tpl_description template_data))
                     && Py.truthy (tpl_description parent_data)
                  then tpl_description parent_data else tpl_description template_data)
                 (if negb (Py.truthy (tpl_data_type template_data))
                     && Py.truthy (tpl_data_type parent_data)
                  then tpl_data_type parent_data else tpl_data_type template_data)
                 (if negb (Py.truthy (tpl_default_value template_data))
                     && Py.truthy (tpl_default_value parent_data)
                  then tpl_default_value parent_data else tpl_default_value template_data))
              templates
        | None => templates
        end
      else templates
  | None => templates
  end.

Definition build_templates (root : Elem) : list (string * Template) :=
  let templates := collect_templates (List.filter (tag_has "template") (children root)) in
  fold_left inherit_template (map fst templates) templates.

Definition build_references (model : Elem) : gmap string string :=
  fold_left (fun references ref =>
               let ref_name := get_or_empty ref "name" in
               let ref_target := get_or_empty ref "targetParamRef" in
               if Py.truthy ref_name && Py.truthy ref_target
               then <[ref_name := ref_target]> references
               else references)
    (List.filter (tag_has "reference") (iter model)) ∅.

(** The loop over the parameters of one object.  The flag tells that an
    exception ended the run: [process_xml_file] catches it and returns what
    [all_data] holds by then. *)
Fixpoint process_parameters (budget : nat) (parameters_found : list Elem)
    (object_name : string) (references : gmap string string)
    (templates : list (string * Template)) (html_descriptions : list (string * string))
    (root : Elem) (all_data : list Row) : list Row * bool :=
  match parameters_found with
  | [] => (all_data, false)
  | param_elem :: rest =>
      match extract_parameter_data budget param_elem object_name references templates
              html_descriptions root with
      | RecursionError => (all_data, true)
      | Ok param_data =>
          let all_data :=
            if negb (Py.truthy (Parameter_Name param_data))
               || bool_decide (Py.strip (Parameter_Name param_data) = ".")
            then all_data
            else if negb (Py.truthy (Full_Path param_data))
                    || bool_decide (Py.strip (Full_Path param_data) = ".")
            then all_data
            else all_data ++ [ParamRow param_data] in
          process_parameters budget rest object_name references templates
            html_descriptions root all_data
      end
  end.

Fixpoint process_objects (budget : nat) (objects_found : list Elem)
    (references : gmap string string) (templates : list (string * Template))
    (html_descriptions : list (string * string)) (root : Elem)
    (all_data : list Row) : list Row * bool :=
  match objects_found with
  | [] => (all_data, false)
  | obj_elem :: rest =>
      let obj_data := extract_object_data obj_elem html_descriptions in
      if negb (Py.truthy (obj_Object_Name obj_data))
         || bool_decide (Py.strip (obj_Object_Name obj_data) = ".")
      then process_objects budget rest references templates html_descriptions root all_data
      else
        let all_data := all_data ++ [ObjectRow obj_data] in
        let parameters_found := List.filter (tag_has "parameter") (children obj_elem) in
        match process_parameters budget parameters_found (obj_Object_Name obj_data)
                references templates html_descriptions root all_data with
        | (all_data, true) => (all_data, true)
        | (all_data, false) =>
            process_objects budget rest references templates html_descriptions root all_data
        end
  end.

(** [process_xml_file] from the parsed document on. *)
Definition process_xml_file (budget : nat) (root : Elem)
    (html_descriptions : list (string * string)) : list Row :=
  match head (List.filter (tag_has "model") (children root)) with
  | None => []
  | Some model =>
      let templates := build_templates root in
      let references := build_references model in
      let objects_found := List.filter (tag_has "object") (iter model) in
      (process_objects budget objects_found references templates html_descriptions root []).1
  end.

(** ** Documentation index *)

(** A cell of the documentation table as [main] reads it: its text with
    the white space at its ends removed ([get_text(strip=True)]) and the
    plain text of its content ([convert_html_to_text] of
    [decode_contents()]).  The conversion from HTML is done by the HTML
    library and is taken as given. *)
Record HtmlCell : Type := mkHtmlCell {
  cell_text : string;
  cell_plain : string
}.

(** A row of the table: its classes ([tr.get("class", [])]) and its cells
    ([tr.find_all("td")]). *)
Record HtmlRow : Type := mkHtmlRow {
  row_classes : list string;
  row_cells : list HtmlCell
}.

(** [extract_description(cells, desc_index)] of [main]. *)
Definition extract_description (cells : list HtmlCell) (desc_index : nat) : string :=
  if bool_decide (desc_index < length cells)
  then default "" (cell_plain <$> cells !! desc_index)
  else if bool_decide (2 <= length cells)
  then default "" (cell_plain <$> cells !! 1)
  else "".

(** The body of the loop of [main] over the rows: the index and
    [last_object_path] before and after one row. *)
Definition index_row (desc_index : nat) (state : list (string * string) * string)
    (tr : HtmlRow) : list (string * string) * string :=
  let '(html_descriptions, last_object_path) := state in
  let classes := row_classes tr in
  if negb (Py.nonempty classes)
     || (negb (Py.in_list "object" classes) && negb (Py.in_list "parameter" classes))
  then state
  else
    match row_cells tr with
    | [] => state
    | first_cell :: _ =>
        let name := cell_text first_cell in
        if negb (Py.truthy name) then state
        else if Py.startswith "object definition" (Py.lower name)
                || Py.startswith "parameter definition" (Py.lower name)
        then state
        else
          let description := extract_description (row_cells tr) desc_index in
          if Py.in_list "object" classes then
            let name := if Py.endswith "." name then name else name +:+ "." in
            (if Py.truthy description
             then dict_set (normalize_path name) description html_descriptions
             else html_descriptions, name)
          else if negb (Py.truthy last_object_path) then state
          else
            let full_path := last_object_path +:+ name in
            (if Py.truthy description
             then dict_set (normalize_path full_path) description html_descriptions
             else html_descriptions, last_object_path)
    end.

(** The index that [main] builds from the rows of the table. *)
Definition build_index (desc_index : nat) (rows : list HtmlRow) : list (string * string) :=
  (fold_left (index_row desc_index) rows ([], "")).1.

(** ** Vocabulary of the statements *)

(** The characters of a string, as a list. *)
Definition chars (s : string) : list ascii := String.list_ascii_of_string s.

Definition dot : ascii := "."%char.
Definition space : ascii := " "%char.

(** Every character of [s] satisfies [P]. *)
Fixpoint all_chars (P : ascii -> Prop) (s : string) : Prop :=
  match s with
  | EmptyString => True
  | String c r => P c /\ all_chars P r
  end.

(** [s] does not start with a character that [p] strips. *)
Definition head_kept (p : ascii -> bool) (s : string) : Prop :=
  match s with
  | EmptyString => True
  | String c _ => p c = false
  end.

(** The names that the document defines as data types. *)
Definition defined_names (xml_root : Elem) : gset string :=
  list_to_set (omap (fun dt => get dt "name") (dataTypes xml_root)).

(** [parent] is the definition that the [base] attribute of [elem] names. *)
Definition base_of (xml_root : Elem) (elem parent : Elem) : Prop :=
  exists base, get elem "base" = Some base /\ base <> "" /\
               find_dataType xml_root base = Some parent.

(** The base chain that starts at [elem] ends after [n] definitions; a
    chain that runs into a cycle has no depth. *)
Inductive chain_depth (xml_root : Elem) : Elem -> nat -> Prop :=
| chain_last elem :
    (forall parent, ~ base_of xml_root elem parent) -> chain_depth xml_root elem 1
| chain_next elem parent n :
    base_of xml_root elem parent -> chain_depth xml_root parent n ->
    chain_depth xml_root elem (S n).

(** Two definitions that name each other as base, and their document. *)
Definition dt_A : Elem :=
  mkElem "dataType" (<["name" := "A"]> (<["base" := "B"]> ∅)) None None [].

Definition dt_B : Elem :=
  mkElem "dataType" (<["name" := "B"]> (<["base" := "A"]> ∅)) None None [].

Definition cyclic_root : Elem := mkElem "document" ∅ None None [dt_A; dt_B].

(** A chain of three definitions, the last a string of at most 64
    characters, and their document. *)
Definition dt_Alias : Elem :=
  mkElem "dataType" (<["name" := "Alias"]> (<["base" := "Name"]> ∅)) None None [].

Definition dt_Name : Elem :=
  mkElem "dataType" (<["name" := "Name"]> (<["base" := "Text"]> ∅)) None None [].

Definition dt_Text : Elem :=
  mkElem "dataType" (<["name" := "Text"]> ∅) None None
    [ mkElem "string" ∅ None None
        [ mkElem "size" (<["maxLength" := "64"]> ∅) None None [] ] ].

Definition chain_root : Elem := mkElem "document" ∅ None None [dt_Alias; dt_Name; dt_Text].

(** The parent chain that starts at the template [name] ends after [n]
    look-ups: at a name that the table does not hold or at a template
    without a parent.  A chain that runs into a cycle has no depth. *)
Inductive template_depth (templates_dict : list (string * Template)) : string -> nat -> Prop :=
| depth_unknown name :
    dict_get name templates_dict = None -> template_depth templates_dict name 1
| depth_root name template_data :
    dict_get name templates_dict = Some template_data ->
    tpl_template template_data = "" ->
    template_depth templates_dict name 1
| depth_parent name template_data n :
    dict_get name templates_dict = Some template_data ->
    tpl_template template_data <> "" ->
    template_depth templates_dict (tpl_template template_data) n ->
    template_depth templates_dict name (S n).

(** Two templates that name each other as parent. *)
Definition cyclic_templates : list (string * Template) :=
  [ ("A", mkTemplate "A" "" "B" "" "" "");
    ("B", mkTemplate "B" "" "A" "" "" "") ].

(** A template that takes its description from its parent. *)
Definition nested_templates : list (string * Template) :=
  [ ("Base", mkTemplate "Base" "" "" "A counter." "unsignedInt" "0");
    ("Child", mkTemplate "Child" "" "Base" "" "" "1") ].

(** A string of one to sixteen characters with two enumerated values, and
    a string that only enumerates its values. *)
Definition enum_a : Elem := mkElem "enumeration" (<["value" := "a"]> ∅) None None [].
Definition enum_b : Elem := mkElem "enumeration" (<["value" := "b"]> ∅) None None [].

Definition sized_enum_string : Elem :=
  mkElem "string" ∅ None None
    [ mkElem "size" (<["minLength" := "1"]> (<["maxLength" := "16"]> ∅)) None None [];
      enum_a; enum_b ].


(** The text that an inline [<range>] puts between the brackets. *)
Definition range_body (range_elem : Elem) : option string :=
  let min_val := get range_elem "minInclusive" in
  let max_val := get range_elem "maxInclusive" in
  if Py.truthy_opt min_val && Py.truthy_opt max_val
  then Some (default "" min_val +:+ ":" +:+ default "" max_val)
  else if Py.truthy_opt min_val then Some (default "" min_val +:+ ":")
  else if Py.truthy_opt max_val then Some (":" +:+ default "" max_val)
  else None.

(** A list of integers whose range stands below [<list>], and a parameter
    with that syntax. *)
Definition range_1_10 : Elem :=
  mkElem "range" (<["minInclusive" := "1"]> (<["maxInclusive" := "10"]> ∅)) None None [].

Definition list_int_syntax : Elem :=
  mkElem "syntax" ∅ None None
    [ mkElem "list" ∅ None None [range_1_10]; mkElem "int" ∅ None None [] ].

Definition list_int_parameter : Elem :=
  mkElem "parameter" (<["name" := "Ports"]> ∅) None None [list_int_syntax].

Definition empty_root : Elem := mkElem "document" ∅ None None [].

(** The same integer with the same range, not in a list, and a dataType
    that is defined as that integer, with its document. *)
Definition int_1_10 : Elem := mkElem "int" ∅ None None [range_1_10].

Definition scalar_int_syntax : Elem := mkElem "syntax" ∅ None None [int_1_10].

Definition dt_Port : Elem :=
  mkElem "dataType" (<["name" := "Port"]> ∅) None None [int_1_10].

Definition port_root : Elem := mkElem "document" ∅ None None [dt_Port].

Definition port_syntax : Elem :=
  mkElem "syntax" ∅ None None [mkElem "dataType" (<["ref" := "Port"]> ∅) None None []].

(** The syntax block names the dataType [name]: its first [dataType] child
    carries [ref = name]. *)
Definition names_dataType (syntax_elem : Elem) (name : string) : Prop :=
  exists before dt after,
    children syntax_elem = before ++ dt :: after /\
    Forall (fun e => local_name_lc e <> "datatype") before /\
    local_name_lc dt = "datatype" /\
    get dt "ref" = Some name.

(** The first string of a list that is not empty, the empty string when
    there is none. *)
Fixpoint first_nonempty (l : list string) : string :=
  match l with
  | [] => ""
  | x :: r => if Py.truthy x then x else first_nonempty r
  end.

(** What the template and the reference of a parameter resolve to; a
    parameter that names none resolves to nothing. *)
Definition template_of (budget : nat) (param_elem : Elem)
    (templates_dict : list (string * Template)) : result (option TemplateData) :=
  if Py.truthy (get_or_empty param_elem "template")
  then extract_template_data budget (get_or_empty param_elem "template") templates_dict
  else Ok None.

Definition reference_of (param_elem : Elem) (references_dict : gmap string string)
    : option RefData :=
  if Py.truthy (get_or_empty param_elem "ref")
  then resolve_reference (get_or_empty param_elem "ref") references_dict
  else None.

(** The full path of a parameter, as [extract_parameter_data] builds it. *)
Definition full_path_of (param_elem : Elem) (parent_object_name : string) : string :=
  Full_Path (described_parameter param_elem parent_object_name []).

(** No entry of the documentation index matches [full_path], neither as it
    is nor with the placeholders removed on both sides. *)
Definition undocumented (html_descriptions : list (string * string)) (full_path : string)
    : Prop :=
  dict_get (normalize_path full_path) html_descriptions = None /\
  Forall (fun key => Py.replace "{i}" "" (normalize_path full_path)
                     <> Py.replace "{i}" "" key)
    (map fst html_descriptions).

(** A parameter that names a dataType which the document does not define. *)
Definition unknown_type_parameter : Elem :=
  mkElem "parameter" (<["name" := "Address"]> ∅) None None
    [ mkElem "syntax" ∅ None None
        [ mkElem "dataType" (<["ref" := "IPAddress"]> ∅) None None [] ] ].

(** A parameter with an embedded description that names the template
    [Child] of [nested_templates]. *)
Definition templated_parameter : Elem :=
  mkElem "parameter" (<["name" := "Count"]> (<["template" := "Child"]> ∅)) None None
    [ mkElem "description" ∅ (Some "Embedded  text.") None [] ].

(** A parameter whose description element is empty. *)
Definition blank_parameter : Elem :=
  mkElem "parameter" (<["name" := "Blank"]> ∅) None None
    [ mkElem "description" ∅ None None [] ].

(** A parameter of a table object, and an index that documents it under
    two keys that differ from its path by placeholders only. *)
Definition channel_parameter : Elem :=
  mkElem "parameter" (<["name" := "Channel"]> ∅) None None [].

Definition radio_index : list (string * string) :=
  [ ("device.wifi.radio", "The radio table.");
    ("device.wifi.radio..channel", "The channel, first entry.");
    ("device.wifi.radio.{i}{i}.channel", "The channel, second entry.") ].

(** The document of the end-to-end scenario: the object [Device.Test.]
    with the parameter [Value], an integer between 1 and 10. *)
Definition e2e_parameter : Elem :=
  mkElem "parameter"
    (<["name" := "Value"]> (<["access" := "readOnly"]> (<["version" := "2.0"]> ∅)))
    None None
    [ mkElem "description" ∅ (Some "Test value {{empty}}") None [];
      mkElem "syntax" ∅ None None [ mkElem "int" ∅ None None [range_1_10] ] ].

Definition e2e_object : Elem :=
  mkElem "object"
    (<["name" := "Device.Test."]> (<["access" := "readOnly"]> (<["version" := "2.0"]> ∅)))
    None None [e2e_parameter].

Definition e2e_model : Elem :=
  mkElem "model" (<["name" := "Device:2.19"]> ∅) None None [e2e_object].

Definition e2e_root : Elem :=
  mkElem "{urn:broadband-forum-org:cwmp:datamodel-1-14}document" ∅ None None [e2e_model].

Definition e2e_record : ParamData :=
  mkParamData "Device.Test." "Value" "Device.Test.Value" "readOnly" "2.0"
    "Test value an empty string" "int[1:10]" "" false.

(** White space in [s] is made of single space characters only, none of
    them first when [after_ws] holds: no tab or line feed, no two spaces in
    a row. *)
Fixpoint single_spaced (after_ws : bool) (s : string) : Prop :=
  match s with
  | EmptyString => True
  | String c r =>
      if Py.is_space c
      then c = space /\ after_ws = false /\ single_spaced true r
      else single_spaced false r
  end.

(** A definition that names [Text] as its base and carries a size of
    its own, and its document. *)
Definition dt_Short : Elem :=
  mkElem "dataType" (<["name" := "Short"]> (<["base" := "Text"]> ∅)) None None
    [ mkElem "description" ∅ (Some "A short text.") None [];
      mkElem "size" (<["maxLength" := "32"]> ∅) None None [] ].

Definition short_root : Elem := mkElem "document" ∅ None None [dt_Short; dt_Text].

(** The target that a reference element gives the name [name], if it
    gives one: its [name] is [name] and neither [name] nor its target is
    empty. *)
Definition reference_target (name : string) (ref : Elem) : option string :=
  if bool_decide (get_or_empty ref "name" = name)
     && Py.truthy (get_or_empty ref "name")
     && Py.truthy (get_or_empty ref "targetParamRef")
  then Some (get_or_empty ref "targetParamRef")
  else None.

(** A model that declares the reference [Lower] twice, and once without a
    target. *)
Definition references_model : Elem :=
  mkElem "model" ∅ None None
    [ mkElem "reference"
        (<["name" := "Lower"]> (<["targetParamRef" := "Device.A.Lower"]> ∅)) None None [];
      mkElem "object" (<["name" := "Device.B."]> ∅) None None
        [ mkElem "reference"
            (<["name" := "Lower"]> (<["targetParamRef" := "Device.B.Lower"]> ∅)) None None [] ];
      mkElem "reference" (<["name" := "Lower"]> ∅) None None [] ].

(** The fields of a record that only the attributes of the parameter and
    its object decide. *)
Definition record_head (p : ParamData) : string * string * string * string * string * bool :=
  (Object_Name p, Parameter_Name p, Full_Path p, Access p, Version p, Is_Object p).

(** A name that is neither empty nor a bare dot between white space. *)
Definition proper_name (s : string) : Prop := s <> "" /\ Py.strip s <> ".".

(** A row that [process_xml_file] may emit. *)
Definition proper_row (row : Row) : Prop :=
  match row with
  | ObjectRow obj_data =>
      proper_name (obj_Object_Name obj_data) /\ obj_Is_Object obj_data = true
  | ParamRow param_data =>
      proper_name (Object_Name param_data) /\ proper_name (Parameter_Name param_data) /\
      proper_name (Full_Path param_data) /\ Is_Object param_data = false
  end.

(** A document with an object without name, an object named by a dot, and
    an object whose parameters are a nameless one and a proper one. *)
Definition degenerate_root : Elem :=
  mkElem "document" ∅ None None
    [ mkElem "model" ∅ None None
        [ mkElem "object" ∅ None None
            [ mkElem "parameter" (<["name" := "Lost"]> ∅) None None [] ];
          mkElem "object" (<["name" := " . "]> ∅) None None [];
          mkElem "object" (<["name" := "Device."]> ∅) None None
            [ mkElem "parameter" ∅ None None [];
              mkElem "parameter" (<["name" := " Up Time "]> ∅) None None [] ] ] ].

(** A document with a template, a template that inherits from it, and an
    object whose second parameter names the inheriting template. *)
Definition templated_root : Elem :=
  mkElem "document" ∅ None None
    [ mkElem "template" (<["name" := "Base"]> ∅) None None
        [ mkElem "description" ∅ (Some "A counter.") None [];
          mkElem "syntax" ∅ None None [ mkElem "unsignedInt" ∅ None None [] ] ];
      mkElem "template" (<["name" := "Child"]> (<["template" := "Base"]> ∅)) None None [];
      mkElem "model" ∅ None None
        [ mkElem "object" (<["name" := "Device."]> ∅) None None
            [ mkElem "parameter" (<["name" := "First"]> ∅) None None [];
              mkElem "parameter" (<["name" := "Second"]> (<["template" := "Child"]> ∅))
                None None [];
              mkElem "parameter" (<["name" := "Third"]> ∅) None None [] ] ] ].

(** A list of hexBinary items whose sizes stand at two depths below the
    item. *)
Definition hex_item : Elem :=
  mkElem "hexBinary" ∅ None None
    [ mkElem "size" (<["minLength" := "4"]> (<["maxLength" := "8"]> ∅)) None None [];
      mkElem "pattern" ∅ None None
        [ mkElem "size" (<["minLength" := "16"]> (<["maxLength" := "32"]> ∅)) None None [] ] ].

Definition hex_list_syntax : Elem :=
  mkElem "syntax" ∅ None None [ mkElem "list" ∅ None None [hex_item] ].

(** [filled] is [template_data] with some of its empty fields filled:
    name, reference and parent are the same, and so is every field of
    description, data type and default value that is not empty. *)
Definition fills (template_data filled : Template) : Prop :=
  tpl_name filled = tpl_name template_data /\
  tpl_ref filled = tpl_ref template_data /\
  tpl_template filled = tpl_template template_data /\
  (tpl_description template_data <> "" ->
   tpl_description filled = tpl_description template_data) /\
  (tpl_data_type template_data <> "" ->
   tpl_data_type filled = tpl_data_type template_data) /\
  (tpl_default_value template_data <> "" ->
   tpl_default_value filled = tpl_default_value template_data).

(** The table of templates as the first pass over the document builds it. *)
Definition raw_templates (root : Elem) : list (string * Template) :=
  collect_templates (List.filter (tag_has "template") (children root)).

(** A table with a parameter before any object, an object, a parameter
    without description, and a documented parameter. *)
Definition radio_rows : list HtmlRow :=
  [ mkHtmlRow ["parameter"] [mkHtmlCell "Orphan" ""; mkHtmlCell "" "Never indexed."];
    mkHtmlRow ["object"; "expandable"]
      [mkHtmlCell "Device.WiFi.Radio.{i}" ""; mkHtmlCell "" "The radio table."];
    mkHtmlRow ["parameter"] [mkHtmlCell "Alias" ""; mkHtmlCell "" ""];
    mkHtmlRow ["parameter"] [mkHtmlCell "Channel" ""; mkHtmlCell "" "The channel."] ].

(** An index whose keys are pairwise different and normalised, and whose
    descriptions are not empty. *)
Definition indexed (html_descriptions : list (string * string)) : Prop :=
  NoDup (map fst html_descriptions) /\
  Forall (fun kv => normalize_path kv.1 = kv.1 /\ kv.2 <> "") html_descriptions.

(** The rows are grouped by object: read from the first to the last, every
    parameter row carries the name of the object row read last before it.
    [current] is the name of that object at the start, if there is one. *)
Inductive grouped : option string -> list Row -> Prop :=
| grouped_nil current : grouped current []
| grouped_object current obj_data rows :
    grouped (Some (obj_Object_Name obj_data)) rows ->
    grouped current (ObjectRow obj_data :: rows)
| grouped_parameter name param_data rows :
    Object_Name param_data = name ->
    grouped (Some name) rows ->
    grouped (Some name) (ParamRow param_data :: rows).

(** The name of the object row read last in [rows], [current] without
    one. *)
Fixpoint last_object (current : option string) (rows : list Row) : option string :=
  match rows with
  | [] => current
  | ObjectRow obj_data :: rows => last_object (Some (obj_Object_Name obj_data)) rows
  | ParamRow _ :: rows => last_object current rows
  end.

(** * Properties *)

Example normalize_path_ex1 :
  normalize_path ".Device.WiFi. Radio.{i}.Channel." = "device.wifi.radio.{i}.channel".
Proof. reflexivity. Qed.

(** ** Characters *)

Section characters.

Lemma lower_char_idem (c : ascii) : Py.lower_char (Py.lower_char c) = Py.lower_char c.
Proof. by destruct c as [[] [] [] [] [] [] [] []]. Qed.

End characters.

(** ** Strings *)

Section strings.

Lemma lower_fixed (s : string) : all_chars (fun c => Py.lower_char c = c) (Py.lower s).
Proof. induction s as [|c r IH]; simpl; auto using lower_char_idem. Qed.

Lemma lower_id (s : string) : all_chars (fun c => Py.lower_char c = c) s -> Py.lower s = s.
Proof. induction s as [|c r IH]; simpl; [done|]. intros [-> ?]. by rewrite IH. Qed.

Lemma remove_space_step (c : ascii) (r : string) :
  Py.replace " " "" (String c r) =
  if bool_decide (c = space) then Py.replace " " "" r else String c (Py.replace " " "" r).
Proof.
  unfold Py.replace; simpl. unfold space.
  destruct (decide (c = " "%char)) as [->|Hne].
  - by rewrite !bool_decide_eq_true_2.
  - rewrite !bool_decide_eq_false_2; [done|done|]. intros E. by apply Hne.
Qed.

Lemma remove_space_all (P : ascii -> Prop) (s : string) :
  all_chars P s -> all_chars P (Py.replace " " "" s).
Proof.
  induction s as [|c r IH]; [done|]. intros [Hc Hr]. rewrite remove_space_step.
  case_bool_decide; simpl; auto.
Qed.

Lemma remove_space_free (s : string) : all_chars (fun c => c <> space) (Py.replace " " "" s).
Proof.
  induction s as [|c r IH]; [done|]. rewrite remove_space_step.
  case_bool_decide; simpl; auto.
Qed.

Lemma remove_space_id (s : string) :
  all_chars (fun c => c <> space) s -> Py.replace " " "" s = s.
Proof.
  induction s as [|c r IH]; [done|]. intros [Hc Hr]. rewrite remove_space_step.
  rewrite bool_decide_eq_false_2 by done. by rewrite IH.
Qed.

Lemma lstrip_all (P : ascii -> Prop) (p : ascii -> bool) (s : string) :
  all_chars P s -> all_chars P (Py.lstrip_by p s).
Proof.
  induction s as [|c r IH]; [done|]. intros [Hc Hr]. simpl.
  destruct (p c); simpl; auto.
Qed.

Lemma rstrip_all (P : ascii -> Prop) (p : ascii -> bool) (s : string) :
  all_chars P s -> all_chars P (Py.rstrip_by p s).
Proof.
  induction s as [|c r IH]; [done|]. intros [Hc Hr]. simpl.
  specialize (IH Hr). destruct (Py.rstrip_by p r); [destruct (p c)|]; simpl in *; auto.
Qed.

Lemma rstrip_idem (p : ascii -> bool) (s : string) :
  Py.rstrip_by p (Py.rstrip_by p s) = Py.rstrip_by p s.
Proof.
  induction s as [|c r IH]; [done|]. simpl.
  destruct (Py.rstrip_by p r) as [|c' r'] eqn:E.
  - destruct (p c) eqn:Ec; simpl; [done|]. by rewrite Ec.
  - simpl in *. by rewrite IH.
Qed.

Lemma lstrip_head (p : ascii -> bool) (s : string) : head_kept p (Py.lstrip_by p s).
Proof. induction s as [|c r IH]; [done|]. simpl. by destruct (p c) eqn:E. Qed.

Lemma rstrip_head (p : ascii -> bool) (s : string) :
  head_kept p s -> head_kept p (Py.rstrip_by p s).
Proof.
  destruct s as [|c r]; [done|]. simpl. intros Hc.
  destruct (Py.rstrip_by p r); [by rewrite Hc|done].
Qed.

Lemma lstrip_id (p : ascii -> bool) (s : string) : head_kept p s -> Py.lstrip_by p s = s.
Proof. destruct s as [|c r]; [done|]. simpl. by intros ->. Qed.

Lemma strip_idem (p : ascii -> bool) (s : string) :
  Py.strip_by p (Py.strip_by p s) = Py.strip_by p s.
Proof.
  unfold Py.strip_by.
  rewrite (lstrip_id p (Py.rstrip_by p (Py.lstrip_by p s))).
  - apply rstrip_idem.
  - apply rstrip_head, lstrip_head.
Qed.

End strings.

Section string_lists.

Lemma chars_lower (s : string) : chars (Py.lower s) = Py.lower_char <$> chars s.
Proof. induction s as [|c r IH]; [done|]. unfold chars in *; simpl. by rewrite IH. Qed.

Lemma chars_remove_space (s : string) :
  chars (Py.replace " " "" s) = filter (fun c => c <> space) (chars s).
Proof.
  induction s as [|c r IH]; [done|]. rewrite remove_space_step.
  unfold chars in *; simpl. rewrite filter_cons.
  case_bool_decide; case_decide; try done; simpl; by rewrite IH.
Qed.

Lemma chars_lstrip (s : string) :
  exists n, chars s = replicate n dot ++ chars (Py.lstrip_by (Py.is_char ".") s).
Proof.
  induction s as [|c r [n IH]]; [by exists 0|]. simpl.
  unfold Py.is_char. case_bool_decide as E.
  - exists (S n). subst c. unfold chars in *; simpl. by rewrite IH.
  - by exists 0.
Qed.

Lemma chars_rstrip (s : string) :
  exists m, chars s = chars (Py.rstrip_by (Py.is_char ".") s) ++ replicate m dot.
Proof.
  induction s as [|c r [m IH]]; [by exists 0|]. simpl.
  destruct (Py.rstrip_by (Py.is_char ".") r) as [|c' r'] eqn:E.
  - unfold Py.is_char. case_bool_decide as Ec.
    + exists (S m). subst c. unfold chars in *; simpl in *. by rewrite IH.
    + exists m. unfold chars in *; simpl in *. by rewrite IH.
  - exists m. unfold chars in *; simpl in *. by rewrite IH.
Qed.

Lemma head_kept_chars (s : string) :
  head_kept (Py.is_char ".") s -> head (chars s) <> Some dot.
Proof.
  destruct s as [|c r]; [done|]. unfold Py.is_char; simpl.
  intros E [= ->]. by rewrite bool_decide_eq_true_2 in E.
Qed.

Lemma rstrip_last (s : string) :
  last (chars (Py.rstrip_by (Py.is_char ".") s)) <> Some dot.
Proof.
  induction s as [|c r IH]; [done|]. simpl.
  destruct (Py.rstrip_by (Py.is_char ".") r) as [|c' r'] eqn:E.
  - unfold Py.is_char. case_bool_decide as Ec; [done|].
    unfold chars; simpl. by intros [= ->].
  - unfold chars in *. simpl in *. done.
Qed.

End string_lists.

(** ** Path normaliser *)

(** C8, as the code has it: the normalised path is the lower-cased path
    with every space character (U+0020) removed and then every leading and
    trailing dot removed; it is defined for every string, and the empty
    string is a possible result. *)
Theorem normalize_path_spec (path : string) :
  (exists n m : nat,
     filter (fun c => c <> space) (Py.lower_char <$> chars path)
     = replicate n dot ++ chars (normalize_path path) ++ replicate m dot) /\
  head (chars (normalize_path path)) <> Some dot /\
  last (chars (normalize_path path)) <> Some dot /\
  normalize_path "" = "" /\ normalize_path ". ." = "".
Proof.
  split; [|split; [|split; [|done]]].
  - unfold normalize_path, Py.strip_by.
    destruct (chars_lstrip (Py.replace " " "" (Py.lower path))) as [n Hn].
    destruct (chars_rstrip (Py.lstrip_by (Py.is_char ".")
                (Py.replace " " "" (Py.lower path)))) as [m Hm].
    exists n, m. by rewrite <- chars_lower, <- chars_remove_space, Hn, Hm.
  - apply head_kept_chars. unfold normalize_path, Py.strip_by.
    apply rstrip_head, lstrip_head.
  - apply rstrip_last.
Qed.

(** C8, as the claim has it, fails: a tab inside a path is white space and
    stays in the normalised path. *)
Lemma normalize_path_keeps_tab :
  let path := String "a" (String "009" "b") in
  normalize_path path = path /\
  ~ Forall (fun c => Py.is_space c = false) (chars (normalize_path path)).
Proof.
  split; [done|]. intros H. apply Forall_cons in H as [_ H].
  apply Forall_cons in H as [H _]. done.
Qed.

(** C10: normalising a path twice gives what normalising it once gives. *)
Theorem normalize_path_idempotent (p : string) :
  normalize_path (normalize_path p) = normalize_path p.
Proof.
  unfold normalize_path at 1.
  rewrite lower_id.
  - rewrite remove_space_id; [apply strip_idem|].
    unfold normalize_path, Py.strip_by.
    apply rstrip_all, lstrip_all, remove_space_free.
  - unfold normalize_path, Py.strip_by.
    apply rstrip_all, lstrip_all, remove_space_all, lower_fixed.
Qed.

(** ** DataType chain resolver *)

Example resolve_chain_ex :
  resolve_datatype_reference 3 "Alias" chain_root None = Ok (Some "string(64)").
Proof. reflexivity. Qed.

Example resolve_chain_short_ex :
  resolve_datatype_reference 2 "Alias" chain_root None = RecursionError.
Proof. reflexivity. Qed.

Example resolve_cyclic_ex :
  resolve_datatype_reference 2 "A" cyclic_root None = Ok None.
Proof. reflexivity. Qed.

Section chain_resolver.

Variable xml_root : Elem.

Lemma head_filter_Some {A} (f : A -> bool) (l : list A) (x : A) :
  head (List.filter f l) = Some x -> x ∈ l /\ f x = true.
Proof.
  induction l as [|y l IH]; [done|]. simpl. destruct (f y) eqn:E; simpl.
  - intros [= ->]. split; [left|done].
  - intros H. destruct (IH H). split; [by right|done].
Qed.

Lemma find_dataType_defined (name : string) (dt : Elem) :
  find_dataType xml_root name = Some dt -> name ∈ defined_names xml_root.
Proof.
  intros H. apply head_filter_Some in H as [Hin Hname].
  apply bool_decide_eq_true_1 in Hname.
  apply elem_of_list_to_set, list_elem_of_omap. eauto.
Qed.

Lemma size_list_to_set_le (l : list string) :
  size (list_to_set l : gset string) <= length l.
Proof.
  induction l as [|x l IH]; [done|].
  rewrite list_to_set_cons, size_union_alt, size_singleton. simpl.
  assert (size (list_to_set l ∖ {[x]} : gset string) <= size (list_to_set l : gset string)).
  { apply subseteq_size. intros y Hy. by apply elem_of_difference in Hy as [? _]. }
  lia.
Qed.

Lemma length_omap_le {A B} (f : A -> option B) (l : list A) :
  length (omap f l) <= length l.
Proof. induction l as [|x l IH]; [done|]. cbn. destruct (f x); cbn; lia. Qed.

Lemma defined_names_size : size (defined_names xml_root) <= length (dataTypes xml_root).
Proof.
  unfold defined_names. etrans; [apply size_list_to_set_le|apply length_omap_le].
Qed.

(** A larger budget does not change what a call returns. *)
Lemma walk_base_chain_mono (budget budget' : nat) (elem : Elem) (visited : gset string)
    (r : option string) :
  walk_base_chain budget elem xml_root visited = Ok r -> budget <= budget' ->
  walk_base_chain budget' elem xml_root visited = Ok r.
Proof.
  revert budget' elem visited.
  induction budget as [|budget IH]; intros budget' elem visited; [done|].
  destruct budget' as [|budget']; [lia|]. simpl.
  destruct (local_type elem); [done|].
  destruct (get elem "base") as [base|]; [|done].
  destruct (Py.truthy base && bool_decide (base ∉ visited)); [|done].
  destruct (find_dataType xml_root base); [|done].
  intros H Hle. apply IH; [done|lia].
Qed.

(** Every recursive call enters a defined name that was not visited, so a
    budget above the number of such names is never used up. *)
Lemma walk_base_chain_bounded (budget : nat) (elem : Elem) (visited : gset string) :
  size (defined_names xml_root ∖ visited) < budget ->
  exists r, walk_base_chain budget elem xml_root visited = Ok r.
Proof.
  revert elem visited.
  induction budget as [|budget IH]; intros elem visited Hsize; [lia|]. simpl.
  destruct (local_type elem); [eauto|].
  destruct (get elem "base") as [base|]; [|eauto].
  destruct (Py.truthy base && bool_decide (base ∉ visited)) eqn:Hbase; [|eauto].
  destruct (find_dataType xml_root base) as [parent|] eqn:Hfind; [|eauto].
  apply IH. apply andb_true_iff in Hbase as [_ Hnew].
  apply bool_decide_eq_true_1 in Hnew.
  apply find_dataType_defined in Hfind.
  assert (defined_names xml_root ∖ ({[base]} ∪ visited)
          ⊂ defined_names xml_root ∖ visited) as Hsub.
  { split.
    - intros y Hy. apply elem_of_difference in Hy as [Hy Hv].
      apply elem_of_difference. split; [done|].
      intros Hin. apply Hv, elem_of_union. by right.
    - intros Hsub. assert (base ∈ defined_names xml_root ∖ visited) as Hb
        by by apply elem_of_difference.
      apply Hsub, elem_of_difference in Hb as [_ Hb].
      apply Hb, elem_of_union. left. by apply elem_of_singleton. }
  apply subset_size in Hsub. lia.
Qed.

Lemma walk_base_chain_depth (elem : Elem) (n : nat) :
  chain_depth xml_root elem n ->
  forall visited, exists r, walk_base_chain n elem xml_root visited = Ok r.
Proof.
  induction 1 as [elem Hlast|elem parent n Hbase Hchain IH]; intros visited; simpl.
  - destruct (local_type elem); [eauto|].
    destruct (get elem "base") as [base|] eqn:Hb; [|eauto].
    destruct (Py.truthy base && bool_decide (base ∉ visited)) eqn:Ht; [|eauto].
    destruct (find_dataType xml_root base) as [parent|] eqn:Hfind; [|eauto].
    destruct (Hlast parent). exists base. split; [done|]. split; [|done].
    intros ->. done.
  - destruct (local_type elem); [eauto|].
    destruct Hbase as (base & -> & _ & ->).
    destruct (Py.truthy base && bool_decide (base ∉ visited)); eauto.
Qed.

(** Where no definition of the chain says anything about its type, the
    walk can only return [None]. *)
Lemma walk_base_chain_silent (budget : nat) (elem : Elem) (visited : gset string)
    (r : option string) :
  (forall e, rtc (base_of xml_root) elem e -> local_type e = None) ->
  walk_base_chain budget elem xml_root visited = Ok r -> r = None.
Proof.
  revert elem visited.
  induction budget as [|budget IH]; intros elem visited Hsilent; [done|]. simpl.
  rewrite (Hsilent elem) by done.
  destruct (get elem "base") as [base|] eqn:Hb; [|by intros [= <-]].
  destruct (Py.truthy base && bool_decide (base ∉ visited)) eqn:Ht; [|by intros [= <-]].
  destruct (find_dataType xml_root base) as [parent|] eqn:Hfind; [|by intros [= <-]].
  apply IH. intros e He. apply Hsilent. eapply rtc_l; [|done].
  exists base. split; [done|]. split; [|done]. intros ->. done.
Qed.

Lemma local_type_first_child (elem : Elem) :
  local_type elem = None -> first_child_type elem = None.
Proof. unfold local_type. by destruct (first_child_type elem). Qed.

End chain_resolver.

(** C3: [resolve_datatype_reference] returns on every document and name.
    A budget of as many nested calls as the document has dataType definitions
    is never used up, and the result does not depend on the budget beyond
    that; on a base chain of depth [N] a budget of [N] is enough; an unknown
    name gives [None]; a chain on which no definition says anything about
    its type, a cyclic one in particular, gives [None]; so does the cycle of
    two definitions that name each other as base, within two calls. *)
Theorem resolve_datatype_reference_terminates (xml_root : Elem) (datatype_name : string) :
  (forall visited, exists r, forall budget,
      length (dataTypes xml_root) <= budget ->
      resolve_datatype_reference budget datatype_name xml_root visited = Ok r) /\
  (forall dt_elem N,
      find_dataType xml_root datatype_name = Some dt_elem ->
      chain_depth xml_root dt_elem N ->
      exists r, forall budget,
        N <= budget ->
        resolve_datatype_reference budget datatype_name xml_root None = Ok r) /\
  (find_dataType xml_root datatype_name = None ->
   forall budget, resolve_datatype_reference budget datatype_name xml_root None = Ok None) /\
  (forall dt_elem,
      find_dataType xml_root datatype_name = Some dt_elem ->
      (forall e, rtc (base_of xml_root) dt_elem e -> local_type e = None) ->
      forall budget,
        length (dataTypes xml_root) <= budget ->
        resolve_datatype_reference budget datatype_name xml_root None = Ok None) /\
  (forall other dt_elem other_elem,
      find_dataType xml_root datatype_name = Some dt_elem ->
      find_dataType xml_root other = Some other_elem ->
      get dt_elem "base" = Some other ->
      get other_elem "base" = Some datatype_name ->
      local_type dt_elem = None ->
      local_type other_elem = None ->
      forall budget,
        2 <= budget ->
        resolve_datatype_reference budget datatype_name xml_root None = Ok None).
Proof.
  assert (forall visited, exists r, forall budget,
      length (dataTypes xml_root) <= budget ->
      resolve_datatype_reference budget datatype_name xml_root visited = Ok r) as Htotal.
  { intros visited. unfold resolve_datatype_reference.
    destruct (bool_decide (datatype_name ∈ default ∅ visited)); [by exists None|].
    destruct (find_dataType xml_root datatype_name) as [dt_elem|] eqn:Hfind;
      [|by exists None].
    destruct (walk_base_chain_bounded xml_root (length (dataTypes xml_root)) dt_elem
                ({[datatype_name]} ∪ default ∅ visited)) as [r0 Hr0].
    { apply find_dataType_defined in Hfind.
      assert (defined_names xml_root ∖ ({[datatype_name]} ∪ default ∅ visited)
              ⊂ defined_names xml_root) as Hsub.
      { split.
        - intros y Hy. by apply elem_of_difference in Hy as [? _].
        - intros Hsub. apply Hsub, elem_of_difference in Hfind as [_ Hnot].
          apply Hnot, elem_of_union. left. by apply elem_of_singleton. }
      apply subset_size in Hsub. pose proof (defined_names_size xml_root). lia. }
    exists (match r0 with
            | Some t => if Py.truthy t then Some t else first_child_type dt_elem
            | None => first_child_type dt_elem
            end).
    intros budget Hle.
    rewrite (walk_base_chain_mono xml_root _ budget _ _ _ Hr0 Hle). simpl.
    destruct r0 as [t|]; [by destruct (Py.truthy t)|done]. }
  split; [exact Htotal|]. split; [|split; [|split]].
  - intros dt_elem N Hfind Hchain. unfold resolve_datatype_reference. simpl.
    rewrite Hfind.
    destruct (walk_base_chain_depth xml_root dt_elem N Hchain
                ({[datatype_name]} ∪ ∅)) as [r0 Hr0].
    exists (match r0 with
            | Some t => if Py.truthy t then Some t else first_child_type dt_elem
            | None => first_child_type dt_elem
            end).
    intros budget Hle.
    rewrite (walk_base_chain_mono xml_root _ budget _ _ _ Hr0 Hle). simpl.
    destruct r0 as [t|]; [by destruct (Py.truthy t)|done].
  - intros Hfind budget. unfold resolve_datatype_reference. simpl. by rewrite Hfind.
  - intros dt_elem Hfind Hsilent budget Hle.
    destruct (Htotal None) as [r Hr]. rewrite (Hr budget Hle).
    specialize (Hr budget Hle). unfold resolve_datatype_reference in Hr. simpl in Hr.
    rewrite Hfind in Hr.
    destruct (walk_base_chain budget dt_elem xml_root ({[datatype_name]} ∪ ∅))
      as [r0|] eqn:Hwalk; [|done].
    apply walk_base_chain_silent in Hwalk; [|done]. subst r0. simpl in Hr.
    rewrite local_type_first_child in Hr by (by apply Hsilent).
    by injection Hr as <-.
  - intros other dt_elem other_elem Hfind Hother Hbase Hback Hl Hlo budget Hle.
    destruct budget as [|[|budget]]; [lia|lia|].
    unfold resolve_datatype_reference. simpl. rewrite Hfind, Hl, Hbase.
    rewrite (local_type_first_child _ Hl).
    destruct (Py.truthy other && bool_decide (other ∉ {[datatype_name]} ∪ (∅ : gset string)));
      [|done].
    rewrite Hother, Hlo, Hback.
    rewrite (bool_decide_eq_false_2 (datatype_name ∉ _)).
    + by rewrite andb_false_r.
    + intros Hnot. apply Hnot, elem_of_union. right. apply elem_of_union. left.
      by apply elem_of_singleton.
Qed.

(** C3 at two documents: the cycle of [cyclic_root] gives [None] within two
    calls, and the chain of depth three of [chain_root] returns within three. *)
Lemma resolve_datatype_reference_witness :
  resolve_datatype_reference 2 "A" cyclic_root None = Ok None /\
  chain_depth chain_root dt_Alias 3 /\
  exists r, forall budget,
    3 <= budget -> resolve_datatype_reference budget "Alias" chain_root None = Ok r.
Proof.
  assert (chain_depth chain_root dt_Alias 3) as Hchain.
  { apply chain_next with dt_Name.
    { exists "Name". split; [reflexivity|]. split; [discriminate|reflexivity]. }
    apply chain_next with dt_Text.
    { exists "Text". split; [reflexivity|]. split; [discriminate|reflexivity]. }
    apply chain_last. intros parent (base & Hbase & _). vm_compute in Hbase. discriminate. }
  split; [|split; [exact Hchain|]].
  - destruct (resolve_datatype_reference_terminates cyclic_root "A")
      as (_ & _ & _ & _ & Hcycle).
    apply (Hcycle "B" dt_A dt_B); [reflexivity..|lia].
  - destruct (resolve_datatype_reference_terminates chain_root "Alias")
      as (_ & Hdepth & _).
    apply (Hdepth dt_Alias 3); [reflexivity|exact Hchain].
Defined.

(** ** Template chain resolver *)

Example extract_template_data_nested_ex :
  extract_template_data 2 "Child" nested_templates
  = Ok (Some (mkTemplateData "A counter." "unsignedInt" "1")).
Proof. reflexivity. Qed.

Section template_resolver.

Variable templates_dict : list (string * Template).

Lemma truthy_empty (s : string) : Py.truthy s = false <-> s = "".
Proof. by destruct s. Qed.

Lemma extract_template_data_mono (budget budget' : nat) (name : string)
    (r : option TemplateData) :
  extract_template_data budget name templates_dict = Ok r -> budget <= budget' ->
  extract_template_data budget' name templates_dict = Ok r.
Proof.
  revert budget' name r.
  induction budget as [|budget IH]; intros budget' name r; [done|].
  destruct budget' as [|budget']; [lia|]. simpl.
  destruct (dict_get name templates_dict) as [template_data|]; [|done].
  destruct (Py.truthy (tpl_template template_data)); [|done].
  destruct (extract_template_data budget (tpl_template template_data) templates_dict)
    as [parent|] eqn:Hparent; [|done].
  intros H Hle. by rewrite (IH budget' _ parent Hparent) by lia.
Qed.

Lemma extract_template_data_depth (name : string) (n : nat) :
  template_depth templates_dict name n ->
  exists r, extract_template_data n name templates_dict = Ok r.
Proof.
  induction 1 as [name Hnone|name template_data Hsome Hroot
                 |name template_data n Hsome Hparent Hdepth [r IH]]; simpl.
  - rewrite Hnone. eauto.
  - rewrite Hsome, Hroot. eauto.
  - rewrite Hsome, IH. simpl.
    destruct (Py.truthy (tpl_template template_data)); [|eauto].
    destruct r; eauto.
Qed.

Lemma extract_template_data_returns (budget : nat) (name : string)
    (r : option TemplateData) :
  extract_template_data budget name templates_dict = Ok r ->
  exists n, n <= budget /\ template_depth templates_dict name n.
Proof.
  revert name r. induction budget as [|budget IH]; intros name r; [done|]. simpl.
  destruct (dict_get name templates_dict) as [template_data|] eqn:Hget.
  - destruct (Py.truthy (tpl_template template_data)) eqn:Hparent.
    + destruct (extract_template_data budget (tpl_template template_data) templates_dict)
        as [parent|] eqn:Hrec; [|done].
      intros _. destruct (IH _ _ Hrec) as (n & Hle & Hn).
      exists (S n). split; [lia|]. eapply depth_parent; [done| |done].
      intros E. apply truthy_empty in E. congruence.
    + intros _. exists 1. split; [lia|]. eapply depth_root; [done|].
      by apply truthy_empty.
  - intros _. exists 1. split; [lia|]. by apply depth_unknown.
Qed.

End template_resolver.

(** C5, as the code has it: [extract_template_data] returns exactly when
    the parent chain of the template ends, and then within as many nested
    calls as the chain has look-ups; the result does not depend on the budget
    beyond that.  The code keeps no set of visited names and no bound on the
    depth. *)
Theorem extract_template_data_terminates (templates_dict : list (string * Template))
    (template_name : string) :
  (forall n, template_depth templates_dict template_name n ->
             exists r, forall budget,
               n <= budget ->
               extract_template_data budget template_name templates_dict = Ok r) /\
  (forall budget r,
      extract_template_data budget template_name templates_dict = Ok r ->
      exists n, n <= budget /\ template_depth templates_dict template_name n).
Proof.
  split.
  - intros n Hdepth.
    destruct (extract_template_data_depth templates_dict _ _ Hdepth) as [r Hr].
    exists r. intros budget Hle. by apply extract_template_data_mono with n.
  - intros budget r. apply extract_template_data_returns.
Qed.

(** C5 at [nested_templates]: the chain from [Child] has depth two and the
    call returns within two nested calls. *)
Lemma extract_template_data_witness :
  template_depth nested_templates "Child" 2 /\
  exists r, forall budget,
    2 <= budget -> extract_template_data budget "Child" nested_templates = Ok r.
Proof.
  assert (template_depth nested_templates "Child" 2) as Hdepth.
  { eapply depth_parent; [reflexivity|discriminate|].
    eapply depth_root; reflexivity. }
  split; [exact Hdepth|].
  destruct (extract_template_data_terminates nested_templates "Child") as [Hret _].
  exact (Hret 2 Hdepth).
Defined.

(** C5, as the claim has it, fails: on two templates that name each other
    as parent no budget is enough, every call ends in [RecursionError]. *)
Lemma extract_template_data_cycle :
  dict_get "A" cyclic_templates = Some (mkTemplate "A" "" "B" "" "" "") /\
  dict_get "B" cyclic_templates = Some (mkTemplate "B" "" "A" "" "" "") /\
  forall budget, extract_template_data budget "A" cyclic_templates = RecursionError.
Proof.
  split; [done|]. split; [done|].
  assert (forall budget,
             extract_template_data budget "A" cyclic_templates = RecursionError /\
             extract_template_data budget "B" cyclic_templates = RecursionError) as H.
  { induction budget as [|budget [IHA IHB]]; [done|].
    split; simpl; [by rewrite IHB|by rewrite IHA]. }
  intros budget. apply H.
Qed.

(** ** Type signature renderer *)

Example extract_type_info_int_ex :
  extract_type_info
    (mkElem "int" ∅ None None
       [mkElem "range" (<["minInclusive" := "0"]> (<["maxInclusive" := "5"]> ∅)) None None []])
  = "int[0:5]".
Proof. reflexivity. Qed.

Example extract_type_info_enum_ex : extract_type_info sized_enum_string = "enum(1:16)[a,b]".
Proof. reflexivity. Qed.

Section renderer.

Lemma app_assoc_s (a b c : string) : (a +:+ b) +:+ c = a +:+ b +:+ c.
Proof.
  induction a as [|x a IH]; [done|].
  change (String x ((a +:+ b) +:+ c) = String x (a +:+ b +:+ c)). by rewrite IH.
Qed.






End renderer.



(** ** Brackets of a range *)

Section range_brackets.

Lemma format_range_body (o c kind : string) (range_elem : Elem) (body : string) :
  range_body range_elem = Some body ->
  format_range o c kind range_elem = kind +:+ o +:+ body +:+ c.
Proof.
  unfold range_body, format_range.
  destruct (Py.truthy_opt (get range_elem "minInclusive"));
    destruct (Py.truthy_opt (get range_elem "maxInclusive")); simpl;
    intros [= <-]; by rewrite ?app_assoc_s.
Qed.

Variables (kind : string) (r : Elem).
Hypothesis Hkind : kind = "int" \/ kind = "long".
Hypothesis Hrange : tag r = "range".

(** The state after the children [<list><range/></list>] and [<kind/>] of
    a syntax block are read. *)
Lemma inline_list_state (syntax_elem list_elem kind_elem : Elem) (object_default : string) :
  children syntax_elem = [list_elem; kind_elem] ->
  tag list_elem = "list" -> children list_elem = [r] -> tag kind_elem = kind ->
  is_list (inline_syntax syntax_elem object_default) = true /\
  st_data_type (inline_syntax syntax_elem object_default) = kind /\
  range_elem (inline_syntax syntax_elem object_default) = Some r.
Proof.
  intros Hchildren Hlist Hitems Htag. unfold inline_syntax. rewrite Hchildren.
  destruct list_elem as [lt la ltext ltail lc], kind_elem as [kt ka ktext ktail kc],
    r as [rt ra rtext rtail rc].
  simpl in Hlist, Hitems, Htag, Hrange. subst lt lc kt rt.
  destruct Hkind as [-> | ->]; by vm_compute.
Qed.

(** The state after the only child [<kind><range/></kind>] of a syntax
    block is read. *)
Lemma inline_scalar_state (syntax_elem kind_elem : Elem) (object_default : string) :
  children syntax_elem = [kind_elem] ->
  tag kind_elem = kind -> children kind_elem = [r] ->
  is_list (inline_syntax syntax_elem object_default) = false /\
  st_data_type (inline_syntax syntax_elem object_default) = kind /\
  range_elem (inline_syntax syntax_elem object_default) = Some r.
Proof.
  intros Hchildren Htag Hitems. unfold inline_syntax. rewrite Hchildren.
  destruct kind_elem as [kt ka ktext ktail kc], r as [rt ra rtext rtail rc].
  simpl in Hitems, Htag, Hrange. subst kt kc rt.
  destruct Hkind as [-> | ->]; by vm_compute.
Qed.

Lemma scan_defaults_inline (l : list Elem) (object_default : string) :
  Forall (fun e => tag e = "list" \/ tag e = kind) l ->
  scan_defaults l object_default = (object_default, None).
Proof.
  induction 1 as [|e l He _ IH]; [done|]. simpl.
  assert (local_name_lc e = "list" \/ local_name_lc e = "int" \/ local_name_lc e = "long")
    as Hname.
  { unfold local_name_lc. destruct He as [-> | ->]; [by left|].
    destruct Hkind as [-> | ->]; [by right; left | by right; right]. }
  destruct Hname as [-> | [-> | ->]]; exact IH.
Qed.

Lemma finish_list_range (st : SyntaxState) (body : string) :
  is_list st = true -> st_data_type st = kind ->
  range_elem st = Some r -> range_body r = Some body ->
  finish_type st = kind +:+ "(" +:+ body +:+ ")".
Proof.
  destruct st as [l k ft se rg od]. simpl. intros -> -> -> Hbody.
  destruct Hkind as [-> | ->]; unfold finish_type; simpl;
    by rewrite (format_range_body _ _ _ _ _ Hbody).
Qed.

Lemma finish_scalar_range (st : SyntaxState) (body : string) :
  is_list st = false -> st_data_type st = kind ->
  range_elem st = Some r -> range_body r = Some body ->
  finish_type st = kind +:+ "[" +:+ body +:+ "]".
Proof.
  destruct st as [l k ft se rg od]. simpl. intros -> -> -> Hbody.
  destruct Hkind as [-> | ->]; unfold finish_type; simpl;
    by rewrite (format_range_body _ _ _ _ _ Hbody).
Qed.

(** The chain renderer on [<kind><range/></kind>]. *)
Lemma extract_type_info_range (kind_elem : Elem) (part : string) :
  tag kind_elem = kind -> children kind_elem = [r] -> range_part r = Some part ->
  extract_type_info kind_elem = kind +:+ "[" +:+ part +:+ "]".
Proof.
  intros Htag Hitems Hpart.
  assert (size_ranges_of kind_elem = [part]) as Hranges.
  { unfold size_ranges_of, ET.find, findall, has_tag. rewrite Hitems. simpl.
    rewrite Hrange. simpl. by rewrite Hpart. }
  assert (enum_values_of kind_elem = []) as Hvalues.
  { unfold enum_values_of, findall, has_tag. rewrite Hitems. simpl. by rewrite Hrange. }
  unfold extract_type_info. rewrite Hranges, Hvalues. unfold local_name. rewrite Htag.
  destruct Hkind as [-> | ->]; reflexivity.
Qed.

End range_brackets.

(** C1: the list branch of the inline rendering puts the range of an [int]
    or a [long] between parentheses, where the claim has square brackets.
    For a range [r] that gives a bound: a syntax block
    [<list><range/></list><int/>] is rendered [int(...)]; the block
    [<int><range/></int>] with the same range is rendered [int[...]] by the
    branch for what is not a list; and a dataType defined as
    [<int><range/></int>] resolves to [int[...]] along the chain, which is
    then the data type of a parameter that names it.  The same holds for
    [long]. *)
Theorem list_range_parentheses (kind body : string) (r : Elem) :
  kind = "int" \/ kind = "long" ->
  tag r = "range" ->
  range_body r = Some body ->
  (forall budget xml_root param_data syntax_elem list_elem kind_elem,
     children syntax_elem = [list_elem; kind_elem] ->
     tag list_elem = "list" -> children list_elem = [r] -> tag kind_elem = kind ->
     exists param_data',
       process_syntax budget xml_root param_data syntax_elem = Ok param_data' /\
       Data_Type param_data' = kind +:+ "(" +:+ body +:+ ")") /\
  (forall budget xml_root param_data syntax_elem kind_elem,
     children syntax_elem = [kind_elem] ->
     tag kind_elem = kind -> children kind_elem = [r] ->
     exists param_data',
       process_syntax budget xml_root param_data syntax_elem = Ok param_data' /\
       Data_Type param_data' = kind +:+ "[" +:+ body +:+ "]") /\
  (forall budget xml_root name dt_elem kind_elem part,
     find_dataType xml_root name = Some dt_elem ->
     children dt_elem = [kind_elem] ->
     tag kind_elem = kind -> children kind_elem = [r] ->
     range_part r = Some part ->
     resolve_datatype_reference (S budget) name xml_root None
     = Ok (Some (kind +:+ "[" +:+ part +:+ "]")) /\
     forall param_data syntax_elem dt_ref,
       children syntax_elem = [dt_ref] ->
       tag dt_ref = "dataType" -> get dt_ref "ref" = Some name -> name <> "" ->
       exists param_data',
         process_syntax (S budget) xml_root param_data syntax_elem = Ok param_data' /\
         Data_Type param_data' = kind +:+ "[" +:+ part +:+ "]").
Proof.
  intros Hkind Hrange Hbody. split; [|split].
  - intros budget xml_root param_data syntax_elem list_elem kind_elem
      Hchildren Hlist Hitems Htag.
    destruct (inline_list_state kind r Hkind Hrange syntax_elem list_elem kind_elem
                (Object_Default param_data) Hchildren Hlist Hitems Htag)
      as (His_list & Hdata_type & Hrange_elem).
    unfold process_syntax.
    rewrite (scan_defaults_inline kind Hkind) by (rewrite Hchildren; repeat constructor; auto).
    simpl. eexists. split; [done|]. simpl.
    exact (finish_list_range kind r Hkind _ body His_list Hdata_type Hrange_elem Hbody).
  - intros budget xml_root param_data syntax_elem kind_elem Hchildren Htag Hitems.
    destruct (inline_scalar_state kind r Hkind Hrange syntax_elem kind_elem
                (Object_Default param_data) Hchildren Htag Hitems)
      as (His_list & Hdata_type & Hrange_elem).
    unfold process_syntax.
    rewrite (scan_defaults_inline kind Hkind) by (rewrite Hchildren; repeat constructor; auto).
    simpl. eexists. split; [done|]. simpl.
    exact (finish_scalar_range kind r Hkind _ body His_list Hdata_type Hrange_elem Hbody).
  - intros budget xml_root name dt_elem kind_elem part Hfind Hchildren Htag Hitems Hpart.
    pose proof (extract_type_info_range kind r Hkind Hrange kind_elem part Htag Hitems Hpart)
      as Hinfo.
    assert (Py.truthy (kind +:+ "[" +:+ part +:+ "]") = true) as Htruthy.
    { by destruct Hkind as [-> | ->]. }
    assert (first_child_type dt_elem = Some (kind +:+ "[" +:+ part +:+ "]")) as Hfirst.
    { unfold first_child_type. rewrite Hchildren. simpl.
      assert (local_name kind_elem = kind) as ->.
      { unfold local_name. rewrite Htag. by destruct Hkind as [-> | ->]. }
      assert (Py.in_list kind ["description"] = false) as ->.
      { by destruct Hkind as [-> | ->]. }
      simpl. by rewrite Hinfo, Htruthy. }
    assert (resolve_datatype_reference (S budget) name xml_root None
            = Ok (Some (kind +:+ "[" +:+ part +:+ "]"))) as Hresolve.
    { unfold resolve_datatype_reference. simpl default.
      rewrite bool_decide_eq_false_2 by set_solver. rewrite Hfind.
      simpl. unfold local_type. rewrite Hfirst. simpl. by rewrite Htruthy. }
    split; [exact Hresolve|].
    intros param_data syntax_elem dt_ref Hsyntax Hdt Href Hname.
    unfold process_syntax. rewrite Hsyntax.
    destruct dt_ref as [dt da dtext dtail dc]. simpl in Hdt. subst dt.
    change (scan_defaults [mkElem "dataType" da dtext dtail dc] (Object_Default param_data))
      with (Object_Default param_data, get (mkElem "dataType" da dtext dtail dc) "ref").
    rewrite Href.
    assert (Py.truthy_opt (Some name) = true) as ->.
    { destruct name; [done|reflexivity]. }
    simpl default. rewrite Hresolve. simpl. rewrite Htruthy.
    eexists. split; [done|]. by destruct param_data.
Qed.

(** C1 at [range_1_10]: the list [list_int_syntax] is rendered with
    parentheses, the same integer in [scalar_int_syntax] and the dataType
    [dt_Port] with square brackets. *)
Lemma list_range_parentheses_witness :
  (exists param_data',
     process_syntax 0 empty_root
       (described_parameter list_int_parameter "Device." []) list_int_syntax
     = Ok param_data' /\
     Data_Type param_data' = "int(1:10)") /\
  (exists param_data',
     process_syntax 0 empty_root
       (described_parameter list_int_parameter "Device." []) scalar_int_syntax
     = Ok param_data' /\
     Data_Type param_data' = "int[1:10]") /\
  resolve_datatype_reference 1 "Port" port_root None = Ok (Some "int[1:10]") /\
  (exists param_data',
     process_syntax 1 port_root
       (described_parameter list_int_parameter "Device." []) port_syntax
     = Ok param_data' /\
     Data_Type param_data' = "int[1:10]").
Proof.
  destruct (list_range_parentheses "int" "1:10" range_1_10) as (Hlist & Hscalar & Hchain);
    [by left|reflexivity|reflexivity|].
  split; [|split].
  - apply (Hlist 0 empty_root _ list_int_syntax
             (mkElem "list" ∅ None None [range_1_10]) (mkElem "int" ∅ None None []));
      reflexivity.
  - apply (Hscalar 0 empty_root _ scalar_int_syntax int_1_10); reflexivity.
  - destruct (Hchain 0 port_root "Port" dt_Port int_1_10 "1:10") as (Hresolve & Hparam);
      [vm_compute; reflexivity|reflexivity|reflexivity|reflexivity|reflexivity|].
    split; [exact Hresolve|].
    apply (Hparam _ port_syntax (mkElem "dataType" (<["ref" := "Port"]> ∅) None None []));
      [reflexivity|reflexivity|vm_compute; reflexivity|discriminate].
Defined.

(** A parameter whose syntax is [list_int_syntax], read by
    [extract_parameter_data]: the range of the [int] stands between
    parentheses in its data type. *)
Example list_int_parentheses :
  extract_parameter_data 0 list_int_parameter "Device." ∅ [] [] empty_root
  = Ok (mkParamData "Device." "Ports" "Device.Ports" "" "" sentinel "int(1:10)" "" false).
Proof. reflexivity. Qed.

(** ** Parameter extractor *)

Section overlays.

Lemma first_nonempty_head (x : string) (l : list string) :
  Py.truthy x = true -> first_nonempty (x :: l) = x.
Proof. simpl. by intros ->. Qed.

Lemma first_nonempty_nest (a b c : string) :
  first_nonempty [first_nonempty [a; b]; c] = first_nonempty [a; b; c].
Proof. by destruct a, b. Qed.

Lemma first_nonempty_end (a b : string) :
  first_nonempty [first_nonempty [a; b]; ""] = first_nonempty [a; b].
Proof. by destruct a, b. Qed.

Lemma overlay_template_fields (template_data : TemplateData) (p : ParamData) :
  Description (overlay_template template_data p)
  = first_nonempty [Description p; description template_data] /\
  Data_Type (overlay_template template_data p)
  = first_nonempty [Data_Type p; data_type template_data] /\
  Object_Default (overlay_template template_data p)
  = first_nonempty [Object_Default p; default_value template_data].
Proof.
  destruct p as [on pn fp ac ve de dt od io].
  destruct template_data as [td tt tv]. unfold overlay_template. simpl.
  destruct de, dt, od, td, tt, tv; done.
Qed.

Lemma overlay_reference_fields (ref_data : RefData) (p : ParamData) :
  Description (overlay_reference ref_data p)
  = first_nonempty [Description p; ref_description ref_data] /\
  Data_Type (overlay_reference ref_data p)
  = first_nonempty [Data_Type p; ref_data_type ref_data] /\
  Object_Default (overlay_reference ref_data p) = Object_Default p.
Proof.
  destruct p as [on pn fp ac ve de dt od io].
  destruct ref_data as [rd rt]. unfold overlay_reference. simpl.
  destruct de, dt, od, rd, rt; done.
Qed.

Lemma resolve_reference_no_type (ref_name : string) (references_dict : gmap string string)
    (ref_data : RefData) :
  resolve_reference ref_name references_dict = Some ref_data -> ref_data_type ref_data = "".
Proof.
  unfold resolve_reference. destruct (references_dict !! ref_name); [|done].
  by intros [= <-].
Qed.

Lemma process_syntax_Description (budget : nat) (xml_root : Elem) (p p' : ParamData)
    (syntax_elem : Elem) :
  process_syntax budget xml_root p syntax_elem = Ok p' -> Description p' = Description p.
Proof.
  unfold process_syntax. destruct (scan_defaults _ _) as [od found].
  destruct (Py.truthy_opt found).
  - destruct (resolve_datatype_reference _ _ _ _) as [r|]; [|done]. simpl.
    destruct (Py.truthy_opt r); by intros [= <-].
  - by intros [= <-].
Qed.

Lemma process_syntaxes_Description (budget : nat) (xml_root : Elem)
    (syntax_elems : list Elem) (p p' : ParamData) :
  process_syntaxes budget xml_root syntax_elems p = Ok p' -> Description p' = Description p.
Proof.
  revert p. induction syntax_elems as [|e l IH]; intros p; simpl.
  - by intros [= <-].
  - destruct (process_syntax budget xml_root p e) as [q|] eqn:Hq; [|done]. simpl.
    intros H. rewrite (IH _ H). by apply process_syntax_Description in Hq.
Qed.

End overlays.

Section description_lookup.

Variables (param_elem : Elem) (name parent_object_name full_path : string).
Variable html_descriptions : list (string * string).

Lemma find_none {A} (f : A -> bool) (l : list A) :
  Forall (fun x => f x = false) l -> List.find f l = None.
Proof. induction 1 as [|x l Hx _ IH]; [done|]. simpl. by rewrite Hx. Qed.

Lemma find_first {A} (f : A -> bool) (before after : list A) (x : A) :
  Forall (fun y => f y = false) before -> f x = true ->
  List.find f (before ++ x :: after) = Some x.
Proof.
  induction 1 as [|y l Hy _ IH]; intros Hx; simpl; [by rewrite Hx|].
  rewrite Hy. by apply IH.
Qed.

Lemma lookup_exact (d : string) :
  dict_get (normalize_path full_path) html_descriptions = Some d ->
  lookup_description param_elem name parent_object_name full_path html_descriptions = d.
Proof. unfold lookup_description. by intros ->. Qed.

Lemma lookup_relaxed (before after : list (string * string)) (key d : string) :
  dict_get (normalize_path full_path) html_descriptions = None ->
  html_descriptions = before ++ (key, d) :: after ->
  Forall (fun kv => Py.replace "{i}" "" (normalize_path full_path)
                    <> Py.replace "{i}" "" kv.1) before ->
  Py.replace "{i}" "" (normalize_path full_path) = Py.replace "{i}" "" key ->
  lookup_description param_elem name parent_object_name full_path html_descriptions = d.
Proof.
  intros Hexact Hsplit Hbefore Hkey. unfold lookup_description. rewrite Hexact.
  rewrite Hsplit, map_app. simpl.
  rewrite (find_first _ (map fst before) (map fst after) key).
  - unfold dict_get. rewrite (find_first _ before after (key, d)); [done| |].
    + eapply Forall_impl; [exact Hbefore|]. intros [k v] Hk. simpl in *.
      apply bool_decide_eq_false_2. intros ->. done.
    + by apply bool_decide_eq_true_2.
  - apply Forall_fmap. eapply Forall_impl; [exact Hbefore|]. intros [k v] Hk. simpl in *.
    by apply bool_decide_eq_false_2.
  - by apply bool_decide_eq_true_2.
Qed.

Lemma lookup_undocumented :
  undocumented html_descriptions full_path ->
  lookup_description param_elem name parent_object_name full_path html_descriptions
  = xml_description param_elem name parent_object_name.
Proof.
  intros [Hexact Hrelaxed]. unfold lookup_description. rewrite Hexact.
  rewrite find_none; [done|].
  eapply Forall_impl; [exact Hrelaxed|]. intros k Hk. by apply bool_decide_eq_false_2.
Qed.

End description_lookup.

(** C4, as the code has it: the description of a parameter is the entry
    of the documentation index for its normalised path; else the first
    entry, in the order of the index, whose key equals the normalised path
    once the placeholder is removed from both; else the text of the last
    description child, macros substituted and white space collapsed; else,
    when the parameter has no description child, the sentinel. *)
Theorem description_order (param_elem : Elem) (parent_object_name : string)
    (html_descriptions : list (string * string)) :
  (forall d,
     dict_get (normalize_path (full_path_of param_elem parent_object_name))
       html_descriptions = Some d ->
     Description (described_parameter param_elem parent_object_name html_descriptions) = d) /\
  (forall before key d after,
     dict_get (normalize_path (full_path_of param_elem parent_object_name))
       html_descriptions = None ->
     html_descriptions = before ++ (key, d) :: after ->
     Forall (fun kv =>
               Py.replace "{i}" "" (normalize_path (full_path_of param_elem parent_object_name))
               <> Py.replace "{i}" "" kv.1) before ->
     Py.replace "{i}" "" (normalize_path (full_path_of param_elem parent_object_name))
     = Py.replace "{i}" "" key ->
     Description (described_parameter param_elem parent_object_name html_descriptions) = d) /\
  (forall desc_elem,
     undocumented html_descriptions (full_path_of param_elem parent_object_name) ->
     last (List.filter (tag_has "description") (children param_elem)) = Some desc_elem ->
     Description (described_parameter param_elem parent_object_name html_descriptions)
     = clean_text (Some (substitute_macros (String.concat "" (itertext desc_elem))
                           (get_or_empty param_elem "name") parent_object_name))) /\
  (undocumented html_descriptions (full_path_of param_elem parent_object_name) ->
   List.filter (tag_has "description") (children param_elem) = [] ->
   Description (described_parameter param_elem parent_object_name html_descriptions)
   = sentinel).
Proof.
  split; [|split; [|split]].
  - intros d. apply lookup_exact.
  - intros before key d after. apply lookup_relaxed.
  - intros desc_elem Hno Hlast. simpl. unfold full_path_of in Hno. simpl in Hno.
    rewrite lookup_undocumented by done. unfold xml_description. by rewrite Hlast.
  - intros Hno Hnone. simpl. unfold full_path_of in Hno. simpl in Hno.
    rewrite lookup_undocumented by done. unfold xml_description. by rewrite Hnone.
Qed.

(** C4 at [channel_parameter]: of the two entries of [radio_index] that
    match without placeholders the first is taken; without an index and
    without a description child the sentinel is. *)
Lemma description_order_witness :
  Description (described_parameter channel_parameter "Device.WiFi.Radio.{i}." radio_index)
  = "The channel, first entry." /\
  Description (described_parameter channel_parameter "Device.WiFi.Radio.{i}." [])
  = sentinel.
Proof.
  split.
  - destruct (description_order channel_parameter "Device.WiFi.Radio.{i}." radio_index)
      as (_ & Hrelaxed & _).
    apply (Hrelaxed [("device.wifi.radio", "The radio table.")]
             "device.wifi.radio..channel" "The channel, first entry."
             [("device.wifi.radio.{i}{i}.channel", "The channel, second entry.")]);
      [vm_compute; reflexivity|reflexivity| |vm_compute; reflexivity].
    constructor; [|constructor].
    intros H. vm_compute in H. discriminate.
  - destruct (description_order channel_parameter "Device.WiFi.Radio.{i}." [])
      as (_ & _ & _ & Hsentinel).
    apply Hsentinel; [|reflexivity]. split; [reflexivity|constructor].
Defined.

(** C4, as the claim has it, fails: a parameter with an empty description
    element and no documentation gets the empty string, not the sentinel. *)
Lemma blank_description_no_sentinel :
  undocumented [] (full_path_of blank_parameter "Device.") /\
  extract_parameter_data 0 blank_parameter "Device." ∅ [] [] empty_root
  = Ok (mkParamData "Device." "Blank" "Device.Blank" "" "" "" "" "" false).
Proof. split; [split; [reflexivity|constructor]|reflexivity]. Qed.

(** The fields of the record that [extract_parameter_data] returns, from
    the record before the overlays and what template and reference resolve
    to. *)
Lemma extract_parameter_data_overlays (budget : nat) (param_elem : Elem) (parent_object_name : string)
    (references_dict : gmap string string) (templates_dict : list (string * Template))
    (html_descriptions : list (string * string)) (xml_root : Elem)
    (typed : ParamData) (template_data : option TemplateData) :
  typed_parameter budget param_elem parent_object_name html_descriptions xml_root = Ok typed ->
  template_of budget param_elem templates_dict = Ok template_data ->
  exists final,
    extract_parameter_data budget param_elem parent_object_name references_dict
      templates_dict html_descriptions xml_root = Ok final /\
    Description final
    = first_nonempty [Description typed;
                      default "" (description <$> template_data);
                      default "" (ref_description <$> reference_of param_elem references_dict)] /\
    Data_Type final
    = first_nonempty [Data_Type typed; default "" (data_type <$> template_data)] /\
    Object_Default final
    = first_nonempty [Object_Default typed; default "" (default_value <$> template_data)].
Proof.
  intros Htyped Htemplate.
  unfold extract_parameter_data. rewrite Htyped. simpl.
  unfold template_of in Htemplate. unfold apply_template, apply_reference, reference_of.
  set (after_template :=
         match template_data with
         | Some t => overlay_template t typed
         | None => typed
         end).
  assert (apply_template budget (get_or_empty param_elem "template") templates_dict typed
          = Ok after_template) as Happly.
  { unfold apply_template.
    destruct (Py.truthy (get_or_empty param_elem "template")).
    - rewrite Htemplate. simpl. unfold after_template. by destruct template_data.
    - injection Htemplate as <-. done. }
  unfold apply_template in Happly. rewrite Happly. simpl.
  assert (Description after_template
          = first_nonempty [Description typed; default "" (description <$> template_data)] /\
          Data_Type after_template
          = first_nonempty [Data_Type typed; default "" (data_type <$> template_data)] /\
          Object_Default after_template
          = first_nonempty [Object_Default typed;
                            default "" (default_value <$> template_data)])
    as (Hd & Ht & Ho).
  { unfold after_template. destruct template_data as [t|]; simpl.
    - apply overlay_template_fields.
    - by destruct (Description typed), (Data_Type typed), (Object_Default typed). }
  eexists. split; [reflexivity|].
  assert (forall fields : ParamData -> string,
            fields (if Py.truthy (get_or_empty param_elem "ref")
                    then match resolve_reference (get_or_empty param_elem "ref")
                                 references_dict with
                         | Some ref_data => overlay_reference ref_data after_template
                         | None => after_template
                         end
                    else after_template)
            = fields (match (if Py.truthy (get_or_empty param_elem "ref")
                             then resolve_reference (get_or_empty param_elem "ref")
                                    references_dict
                             else None) with
                      | Some ref_data => overlay_reference ref_data after_template
                      | None => after_template
                      end)) as Hfields.
  { intros fields. by destruct (Py.truthy (get_or_empty param_elem "ref")). }
  rewrite !Hfields. clear Hfields.
  destruct (if Py.truthy (get_or_empty param_elem "ref")
            then resolve_reference (get_or_empty param_elem "ref") references_dict
            else None) as [ref_data|] eqn:Href; simpl.
  - destruct (overlay_reference_fields ref_data after_template) as (Hrd & Hrt & Hro).
    assert (ref_data_type ref_data = "") as Hnotype.
    { destruct (Py.truthy (get_or_empty param_elem "ref")); [|done].
      by apply resolve_reference_no_type in Href. }
    rewrite Hrd, Hrt, Hro, Hd, Ht, Ho, Hnotype.
    split; [|split].
    + apply first_nonempty_nest.
    + apply first_nonempty_end.
    + done.
  - rewrite Hd, Ht, Ho. by repeat split.
Qed.

(** C2: once the description is looked up and the syntax blocks are read,
    the template fills only the fields that are still empty, and the
    reference only the description if it is still empty then; a
    documentation entry goes before the embedded description, and the
    embedded description, when it is not empty, before the template. *)
Theorem priority_law (budget : nat) (param_elem : Elem) (parent_object_name : string)
    (references_dict : gmap string string) (templates_dict : list (string * Template))
    (html_descriptions : list (string * string)) (xml_root : Elem)
    (typed : ParamData) (template_data : option TemplateData) :
  typed_parameter budget param_elem parent_object_name html_descriptions xml_root = Ok typed ->
  template_of budget param_elem templates_dict = Ok template_data ->
  exists final,
    extract_parameter_data budget param_elem parent_object_name references_dict
      templates_dict html_descriptions xml_root = Ok final /\
    Description final
    = first_nonempty [Description typed;
                      default "" (description <$> template_data);
                      default "" (ref_description <$> reference_of param_elem references_dict)] /\
    Data_Type final
    = first_nonempty [Data_Type typed; default "" (data_type <$> template_data)] /\
    Object_Default final
    = first_nonempty [Object_Default typed; default "" (default_value <$> template_data)] /\
    (forall d,
       dict_get (normalize_path (full_path_of param_elem parent_object_name))
         html_descriptions = Some d ->
       Description typed = d) /\
    (undocumented html_descriptions (full_path_of param_elem parent_object_name) ->
     Py.truthy (xml_description param_elem (get_or_empty param_elem "name")
                  parent_object_name) = true ->
     Description final
     = xml_description param_elem (get_or_empty param_elem "name") parent_object_name).
Proof.
  intros Htyped Htemplate.
  assert (Description typed
          = lookup_description param_elem (get_or_empty param_elem "name")
              parent_object_name (full_path_of param_elem parent_object_name)
              html_descriptions) as Hdesc.
  { unfold typed_parameter in Htyped. by apply process_syntaxes_Description in Htyped. }
  destruct (extract_parameter_data_overlays budget param_elem parent_object_name
              references_dict templates_dict html_descriptions xml_root typed template_data
              Htyped Htemplate) as (final & Hfinal & Hd & Ht & Ho).
  exists final. split; [done|]. split; [done|]. split; [done|]. split; [done|]. split.
  - intros d Hexact. rewrite Hdesc. by apply lookup_exact.
  - intros Hno Hembedded. rewrite Hd, Hdesc, lookup_undocumented by done.
    by apply first_nonempty_head.
Qed.

(** C2 at [templated_parameter]: the embedded description stays, type and
    default value come from the template [Child] and its parent. *)
Lemma priority_law_witness :
  exists final,
    extract_parameter_data 2 templated_parameter "Device." ∅ nested_templates [] empty_root
    = Ok final /\
    Description final = "Embedded text." /\
    Data_Type final = "unsignedInt" /\
    Object_Default final = "1".
Proof.
  destruct (priority_law 2 templated_parameter "Device." ∅ nested_templates [] empty_root
              (mkParamData "Device." "Count" "Device.Count" "" "" "Embedded text." "" "" false)
              (Some (mkTemplateData "A counter." "unsignedInt" "1")))
    as (final & Hfinal & Hd & Ht & Ho & _); [reflexivity|reflexivity|].
  exists final. split; [exact Hfinal|]. rewrite Hd, Ht, Ho. repeat split.
Defined.

Section placeholder.

Lemma scan_defaults_names (syntax_elem : Elem) (name : string) (object_default : string) :
  names_dataType syntax_elem name ->
  (scan_defaults (children syntax_elem) object_default).2 = Some name.
Proof.
  intros (before & dt & after & -> & Hbefore & Hdt & Href). revert object_default.
  induction Hbefore as [|e l He _ IH]; intros object_default; simpl.
  - rewrite Hdt. by rewrite Href.
  - case_bool_decide as Hdefault.
    + destruct (get e "value"); [done|]. by destruct (Py.truthy_opt (text e)).
    + by rewrite bool_decide_eq_false_2.
Qed.

Lemma process_syntax_placeholder (budget : nat) (xml_root : Elem) (p : ParamData)
    (syntax_elem : Elem) (name : string) :
  names_dataType syntax_elem name -> name <> "" ->
  resolve_datatype_reference budget name xml_root None = Ok None ->
  exists p', process_syntax budget xml_root p syntax_elem = Ok p' /\
             Data_Type p' = "ref(" +:+ name +:+ ")".
Proof.
  intros Hnames Hname Hresolve. unfold process_syntax.
  pose proof (scan_defaults_names syntax_elem name (Object_Default p) Hnames) as Hscan.
  destruct (scan_defaults _ _) as [od found]. simpl in Hscan. subst found. simpl.
  assert (Py.truthy name = true) as -> by by destruct name.
  rewrite Hresolve. simpl. eauto.
Qed.

End placeholder.

(** C7: a parameter whose syntax block names a dataType that does not
    resolve gets the data type [ref(<name>)], and the record is returned;
    neither template nor reference changes that. *)
Theorem unresolved_reference_placeholder (budget : nat) (param_elem : Elem)
    (parent_object_name : string) (references_dict : gmap string string)
    (templates_dict : list (string * Template))
    (html_descriptions : list (string * string)) (xml_root : Elem)
    (syntax_elem : Elem) (name : string) (template_data : option TemplateData) :
  List.filter (tag_has "syntax") (children param_elem) = [syntax_elem] ->
  names_dataType syntax_elem name ->
  name <> "" ->
  resolve_datatype_reference budget name xml_root None = Ok None ->
  template_of budget param_elem templates_dict = Ok template_data ->
  exists final,
    extract_parameter_data budget param_elem parent_object_name references_dict
      templates_dict html_descriptions xml_root = Ok final /\
    Data_Type final = "ref(" +:+ name +:+ ")".
Proof.
  intros Hsyntax Hnames Hname Hresolve Htemplate.
  destruct (process_syntax_placeholder budget xml_root
              (described_parameter param_elem parent_object_name html_descriptions)
              syntax_elem name Hnames Hname Hresolve) as (typed & Htyped & Htype).
  destruct (extract_parameter_data_overlays budget param_elem parent_object_name
              references_dict templates_dict html_descriptions xml_root typed template_data)
    as (final & Hfinal & _ & Hfinal_type & _); [|done|].
  { unfold typed_parameter. rewrite Hsyntax. simpl. by rewrite Htyped. }
  exists final. split; [done|]. rewrite Hfinal_type, Htype. reflexivity.
Qed.

(** C7 at [unknown_type_parameter]: the document defines no [IPAddress]. *)
Lemma unresolved_reference_witness :
  exists final,
    extract_parameter_data 0 unknown_type_parameter "Device." ∅ [] [] empty_root = Ok final /\
    Data_Type final = "ref(IPAddress)".
Proof.
  apply (unresolved_reference_placeholder 0 unknown_type_parameter "Device." ∅ [] []
           empty_root
           (mkElem "syntax" ∅ None None
              [ mkElem "dataType" (<["ref" := "IPAddress"]> ∅) None None [] ])
           "IPAddress" None); [reflexivity| |discriminate|reflexivity|reflexivity].
  exists [], (mkElem "dataType" (<["ref" := "IPAddress"]> ∅) None None []), [].
  repeat split. constructor.
Defined.

(** ** End to end *)

Example e2e_ex :
  process_xml_file 0 e2e_root []
  = [ ObjectRow (mkObjectData "Device.Test." "readOnly" "" "" "2.0" "" true);
      ParamRow e2e_record ].
Proof. vm_compute. reflexivity. Qed.

Example substitute_macros_ex :
  substitute_macros "Test value {{empty}}" "Value" "Device.Test." = "Test value an empty string".
Proof. vm_compute. reflexivity. Qed.

Lemma e2e_parameter_record (budget : nat) (html_descriptions : list (string * string)) :
  undocumented html_descriptions "Device.Test.Value" ->
  extract_parameter_data budget e2e_parameter "Device.Test." ∅ [] html_descriptions e2e_root
  = Ok e2e_record.
Proof.
  intros Hno. unfold extract_parameter_data, typed_parameter, described_parameter.
  rewrite (lookup_undocumented e2e_parameter _ _ _ html_descriptions Hno).
  reflexivity.
Qed.

(** C9: the document [e2e_root] with no documentation for
    [Device.Test.Value] yields the object row and then the record of the
    parameter, with data type [int[1:10]] and description
    [Test value an empty string]. *)
Theorem end_to_end (budget : nat) (html_descriptions : list (string * string)) :
  undocumented html_descriptions "Device.Test.Value" ->
  process_xml_file budget e2e_root html_descriptions
  = [ ObjectRow (extract_object_data e2e_object html_descriptions); ParamRow e2e_record ] /\
  Full_Path e2e_record = "Device.Test.Value" /\
  Data_Type e2e_record = "int[1:10]" /\
  Description e2e_record = "Test value an empty string".
Proof.
  intros Hno. split; [|done].
  unfold process_xml_file.
  change (head (List.filter (tag_has "model") (children e2e_root))) with (Some e2e_model).
  cbv beta iota zeta.
  change (build_templates e2e_root) with ([] : list (string * Template)).
  change (build_references e2e_model) with (∅ : gmap string string).
  change (List.filter (tag_has "object") (iter e2e_model)) with [e2e_object].
  cbn [process_objects].
  change (obj_Object_Name (extract_object_data e2e_object html_descriptions))
    with "Device.Test.".
  change (negb (Py.truthy "Device.Test.") || bool_decide (Py.strip "Device.Test." = "."))
    with false.
  cbv iota.
  change (List.filter (tag_has "parameter") (children e2e_object)) with [e2e_parameter].
  cbn [process_parameters].
  rewrite (e2e_parameter_record budget html_descriptions Hno).
  reflexivity.
Qed.

(** C9 with an index that documents other paths only. *)
Lemma end_to_end_witness :
  process_xml_file 0 e2e_root radio_index
  = [ ObjectRow (mkObjectData "Device.Test." "readOnly" "" "" "2.0" "" true);
      ParamRow e2e_record ].
Proof.
  destruct (end_to_end 0 radio_index) as [Hrows _].
  - split; [vm_compute; reflexivity|].
    repeat (constructor; [intros H; vm_compute in H; discriminate|]). constructor.
  - rewrite Hrows. reflexivity.
Defined.

(** * Further properties of the code *)

(** ** Text cleaning *)

Section cleaning.

Lemma collapse_ws_single_spaced (in_ws : bool) (s : string) :
  single_spaced in_ws (Py.collapse_ws in_ws s).
Proof.
  revert in_ws. induction s as [|c r IH]; intros in_ws; [done|]. simpl.
  destruct (Py.is_space c) eqn:Hc.
  - destruct in_ws; [apply IH|]. simpl. by split; [|split; [|apply IH]].
  - simpl. rewrite Hc. apply IH.
Qed.

Lemma collapse_ws_id (in_ws : bool) (s : string) :
  single_spaced in_ws s -> Py.collapse_ws in_ws s = s.
Proof.
  revert in_ws. induction s as [|c r IH]; intros in_ws; [done|]. simpl.
  destruct (Py.is_space c).
  - intros (-> & -> & Hr). by rewrite IH.
  - intros Hr. by rewrite IH.
Qed.

Lemma single_spaced_weaken (s : string) : single_spaced true s -> single_spaced false s.
Proof.
  destruct s as [|c r]; [done|]. simpl. destruct (Py.is_space c); [|done].
  by intros (_ & ? & _).
Qed.

Lemma lstrip_single_spaced (s : string) :
  single_spaced false s -> single_spaced true (Py.lstrip_by Py.is_space s).
Proof.
  induction s as [|c r IH]; [done|]. simpl. destruct (Py.is_space c) eqn:Hc.
  - intros (_ & _ & Hr). apply IH. by apply single_spaced_weaken.
  - simpl. by rewrite Hc.
Qed.

Lemma rstrip_single_spaced (after_ws : bool) (s : string) :
  single_spaced after_ws s -> single_spaced after_ws (Py.rstrip_by Py.is_space s).
Proof.
  revert after_ws. induction s as [|c r IH]; intros after_ws; [done|]. simpl.
  destruct (Py.is_space c) eqn:Hc.
  - intros (Hc' & Hafter & Hr). specialize (IH _ Hr).
    destruct (Py.rstrip_by Py.is_space r); [done|]. simpl. by rewrite Hc.
  - intros Hr. specialize (IH _ Hr).
    destruct (Py.rstrip_by Py.is_space r); simpl; by rewrite Hc.
Qed.

Lemma rstrip_last_by (p : ascii -> bool) (s : string) (c : ascii) :
  last (chars (Py.rstrip_by p s)) = Some c -> p c = false.
Proof.
  induction s as [|a r IH]; [done|]. simpl.
  destruct (Py.rstrip_by p r) as [|b r'] eqn:E.
  - destruct (p a) eqn:Ha; [done|]. unfold chars. simpl. by intros [= <-].
  - unfold chars in *. simpl in *. done.
Qed.

End cleaning.

(** X1: the text that [clean_text] returns holds no white space but single
    space characters, neither first nor last, and cleaning it again changes
    nothing. *)
Theorem clean_text_normal (text : option string) :
  single_spaced true (clean_text text) /\
  (forall c, last (chars (clean_text text)) = Some c -> Py.is_space c = false) /\
  clean_text (Some (clean_text text)) = clean_text text.
Proof.
  assert (single_spaced true (clean_text text)) as Hspaced.
  { destruct text as [t|]; [|done]. unfold clean_text, Py.strip, Py.strip_by.
    apply rstrip_single_spaced, lstrip_single_spaced, collapse_ws_single_spaced. }
  split; [done|]. split.
  - destruct text as [t|]; [|done]. unfold clean_text, Py.strip, Py.strip_by.
    apply rstrip_last_by.
  - unfold clean_text at 1.
    rewrite collapse_ws_id by by apply single_spaced_weaken.
    destruct text as [t|]; [|done]. unfold clean_text, Py.strip. apply strip_idem.
Qed.

(** ** Macro substitution *)

Section macros.

Lemma startswith_spec (p s : string) :
  Py.startswith p s = true <-> exists b, s = p +:+ b.
Proof.
  revert s. induction p as [|a p IH]; intros s; simpl.
  - split; [by exists s|done].
  - destruct s as [|c s]; [split; [done|by intros [b Hb]]|].
    rewrite andb_true_iff, bool_decide_eq_true, IH. split.
    + intros [-> [b ->]]. by exists b.
    + intros [b Hb]. injection Hb as -> ->. eauto.
Qed.

Lemma contains_spec (sub s : string) :
  Py.contains sub s = true <-> exists a b, s = a +:+ sub +:+ b.
Proof.
  induction s as [|c s IH]; simpl; rewrite orb_true_iff, startswith_spec.
  - split.
    + intros [[b Hb]|]; [|done]. by exists "", b.
    + intros (a & b & Hab). left. destruct a; [by exists b|done].
  - rewrite IH. split.
    + intros [[b Hb]|(a & b & ->)]; [by exists "", b|]. by exists (String c a), b.
    + intros (a & b & Hab). destruct a as [|a0 a]; [left; by exists b|].
      right. injection Hab as -> ->. eauto.
Qed.

Lemma contains_app (sub a s b : string) :
  Py.contains sub s = true -> Py.contains sub (a +:+ s +:+ b) = true.
Proof.
  rewrite !contains_spec. intros (x & y & ->). exists (a +:+ x), (y +:+ b).
  by rewrite !app_assoc_s.
Qed.

Lemma lstrip_suffix (p : ascii -> bool) (s : string) :
  exists pre, s = pre +:+ Py.lstrip_by p s.
Proof.
  induction s as [|c r [pre IH]]; [by exists ""|]. simpl.
  destruct (p c); [|by exists ""]. exists (String c pre).
  change (String c r = String c (pre +:+ Py.lstrip_by p r)). by rewrite <- IH.
Qed.

Lemma rstrip_prefix (p : ascii -> bool) (s : string) :
  exists post, s = Py.rstrip_by p s +:+ post.
Proof.
  induction s as [|c r [post IH]]; [by exists ""|]. simpl.
  destruct (Py.rstrip_by p r) as [|c' r'] eqn:E.
  - destruct (p c).
    + by exists (String c r).
    + exists post. change (String c r = String c ("" +:+ post)). by rewrite <- IH.
  - exists post. change (String c r = String c (String c' r' +:+ post)). by rewrite <- IH.
Qed.

Lemma strip_inside (s : string) : exists pre post, s = pre +:+ Py.strip s +:+ post.
Proof.
  unfold Py.strip, Py.strip_by.
  destruct (lstrip_suffix Py.is_space s) as [pre Hpre].
  destruct (rstrip_prefix Py.is_space (Py.lstrip_by Py.is_space s)) as [post Hpost].
  exists pre, post. by rewrite <- Hpost.
Qed.

(** Without an occurrence of [old] nothing is replaced. *)
Lemma replace_absent (old new s : string) :
  Py.contains old s = false -> Py.replace old new s = s.
Proof.
  unfold Py.replace. induction s as [|c r IH]; [done|]. simpl.
  intros H. apply orb_false_iff in H as [Hstart Hrest].
  rewrite Hstart. by rewrite IH.
Qed.

Lemma sub_macros_absent (f : string -> string) (s : string) :
  Py.contains "{{" s = false -> Py.sub_macros f 0 s = s.
Proof.
  induction s as [|c r IH]; [done|]. intros H.
  change (Py.contains "{{" (String c r))
    with (Py.startswith "{{" (String c r) || Py.contains "{{" r) in H.
  apply orb_false_iff in H as [Hstart Hrest].
  change (Py.sub_macros f 0 (String c r))
    with (match (if Py.startswith "{{" (String c r)
                 then match r with
                      | String _ r2 => Py.macro_body r2
                      | EmptyString => None
                      end
                 else None) with
          | Some g => f g +:+ Py.sub_macros f (String.length g + 3) r
          | None => String c (Py.sub_macros f 0 r)
          end).
  rewrite Hstart. by rewrite IH.
Qed.

(** The group of a macro never holds two closing braces in a row. *)
Lemma macro_body_head (s g : string) (a : ascii) :
  Py.macro_body s = Some (String a g) -> exists r, s = String a r.
Proof.
  destruct s as [|c r]; [done|].
  change (Py.macro_body (String c r))
    with (if Py.startswith "}}" (String c r) then Some EmptyString
          else if bool_decide (c = "010"%char) then None
               else String c <$> Py.macro_body r).
  destruct (Py.startswith "}}" (String c r)); [done|].
  destruct (bool_decide (c = "010"%char)); [done|].
  destruct (Py.macro_body r); [|done]. simpl. intros [= -> _]. eauto.
Qed.

Lemma macro_body_open (s g : string) :
  Py.macro_body s = Some g -> Py.contains "}}" g = false.
Proof.
  revert g. induction s as [|c r IH]; intros g.
  - simpl. by intros [= <-].
  - change (Py.macro_body (String c r))
      with (if Py.startswith "}}" (String c r) then Some EmptyString
            else if bool_decide (c = "010"%char) then None
                 else String c <$> Py.macro_body r).
    destruct (Py.startswith "}}" (String c r)) eqn:Hstart; [by intros [= <-]|].
    destruct (bool_decide (c = "010"%char)); [done|].
    destruct (Py.macro_body r) as [g'|] eqn:Hbody; [|done]. simpl. intros [= <-].
    change (Py.contains "}}" (String c g'))
      with (Py.startswith "}}" (String c g') || Py.contains "}}" g').
    rewrite (IH g' eq_refl), orb_false_r.
    destruct (Py.startswith "}}" (String c g')) eqn:Hg; [|done].
    apply startswith_spec in Hg as [b Hb]. injection Hb as -> ->.
    apply macro_body_head in Hbody as [r' ->]. done.
Qed.

End macros.

(** X2: a text without two opening braces in a row holds no macro;
    [substitute_macros] returns it with the white space at its ends removed
    and nothing else changed, whatever the parameter and the object are. *)
Theorem substitute_macros_plain (text param_name object_path : string) :
  Py.contains "{{" text = false ->
  substitute_macros text param_name object_path = Py.strip text.
Proof.
  intros Hplain. unfold substitute_macros. destruct text as [|c r]; [done|].
  simpl negb. cbv iota. by rewrite sub_macros_absent.
Qed.

(** X2 at a text with single braces. *)
Lemma substitute_macros_plain_witness :
  substitute_macros "  The {i}-th entry } of the table. " "Value" "Device.Test."
  = "The {i}-th entry } of the table.".
Proof.
  rewrite (substitute_macros_plain "  The {i}-th entry } of the table. " "Value" "Device.Test.");
    reflexivity.
Defined.

(** X3: in a [reference|] macro the token [{{object}}] is never replaced
    by the object path.  The group of the regular expression stops before
    the first two closing braces, so the content of the macro cannot hold the
    token, and the macro expands to its content as it is. *)
Theorem reference_macro_verbatim (s group param_name object_path : string) :
  Py.macro_body s = Some group ->
  Py.startswith "reference|" (Py.strip group) = true ->
  exists content,
    Py.strip group = "reference|" +:+ content /\
    macro_replacer param_name object_path group = content.
Proof.
  intros Hbody Hmacro. apply startswith_spec in Hmacro as [content Hcontent].
  exists content. split; [done|].
  assert (Py.contains "{{object}}" content = false) as Habsent.
  { destruct (Py.contains "{{object}}" content) eqn:Hc; [|done].
    apply contains_spec in Hc as (a & b & ->).
    assert (Py.contains "}}" group = true) as Hclose; [|by rewrite (macro_body_open _ _ Hbody) in Hclose].
    destruct (strip_inside group) as (pre & post & Hgroup). rewrite Hgroup, Hcontent.
    apply contains_app, contains_spec.
    exists ("reference|" +:+ a +:+ "{{object"), b. by rewrite !app_assoc_s. }
  unfold macro_replacer. rewrite Hcontent.
  change (Py.replace "{{object}}"
            (if Py.truthy object_path then Py.rstrip_by (Py.is_char ".") object_path
             else "this object") content = content).
  by apply replace_absent.
Qed.

(** X3 at the text [{{reference|{{object}}.Enable}}]: the group ends before
    the first closing braces and is returned without the object path. *)
Lemma reference_macro_witness :
  Py.macro_body "reference|{{object}}.Enable}}" = Some "reference|{{object" /\
  macro_replacer "Status" "Device.WiFi." "reference|{{object" = "{{object".
Proof.
  split; [reflexivity|].
  destruct (reference_macro_verbatim "reference|{{object}}.Enable}}" "reference|{{object"
              "Status" "Device.WiFi.") as (content & Hcontent & ->); [reflexivity..|].
  vm_compute in Hcontent. congruence.
Defined.

(** ** DataType chain resolver, further *)

Section resolver_results.

Lemma truthy_app_l (a b : string) : Py.truthy a = true -> Py.truthy (a +:+ b) = true.
Proof. by destruct a. Qed.

Lemma truthy_app_r (a b : string) : Py.truthy b = true -> Py.truthy (a +:+ b) = true.
Proof. by destruct a. Qed.

Lemma truthy_true (s : string) : s <> "" -> Py.truthy s = true.
Proof. by destruct s. Qed.

Lemma extract_type_info_truthy (elem : Elem) :
  local_name elem <> "" -> Py.truthy (extract_type_info elem) = true.
Proof.
  intros Hname. apply truthy_true in Hname. unfold extract_type_info.
  destruct (Py.nonempty (enum_values_of elem)).
  - destruct (bool_decide (local_name elem = "string") && all_children_enumeration elem);
      simpl.
    + by destruct (Py.nonempty (size_ranges_of elem)).
    + destruct (Py.nonempty (enum_values_of elem)), (Py.nonempty (size_ranges_of elem)); done.
  - destruct (Py.nonempty (enum_values_of elem)), (Py.nonempty (size_ranges_of elem));
      simpl; rewrite ?truthy_app_l; try done; by rewrite truthy_app_l.
Qed.

Lemma local_type_truthy (elem : Elem) (t : string) :
  local_type elem = Some t -> Py.truthy t = true.
Proof.
  unfold local_type.
  destruct (first_child_type elem) as [t1|] eqn:H1.
  { intros [= <-]. by apply head_filter_Some in H1 as [_ ?]. }
  destruct (first_primitive_below elem) as [t2|] eqn:H2.
  { intros [= <-]. by apply head_filter_Some in H2 as [_ ?]. }
  destruct (Py.nonempty (findall "enumeration" elem)); [by intros [= <-]|].
  destruct (Py.truthy (size_range_str_of (local_name elem) (size_ranges_of elem)))
    eqn:Hown; [|done].
  intros [= <-]. by apply truthy_app_r.
Qed.

Lemma walk_base_chain_truthy (xml_root : Elem) (budget : nat) (elem : Elem)
    (visited : gset string) (t : string) :
  walk_base_chain budget elem xml_root visited = Ok (Some t) -> Py.truthy t = true.
Proof.
  revert elem visited. induction budget as [|budget IH]; intros elem visited; [done|].
  simpl. destruct (local_type elem) as [t'|] eqn:Hlocal.
  { intros [= <-]. by apply local_type_truthy in Hlocal. }
  destruct (get elem "base") as [base|]; [|done].
  destruct (Py.truthy base && bool_decide (base ∉ visited)); [|done].
  destruct (find_dataType xml_root base); [|done]. apply IH.
Qed.

Lemma first_child_type_first (elem : Elem) (descriptions rest : list Elem) (child : Elem) :
  children elem = descriptions ++ child :: rest ->
  Forall (fun d => local_name d = "description") descriptions ->
  local_name child <> "description" -> local_name child <> "" ->
  first_child_type elem = Some (extract_type_info child).
Proof.
  intros Hchildren Hdescriptions Hother Hname. unfold first_child_type.
  rewrite Hchildren. clear Hchildren.
  induction Hdescriptions as [|d l Hd _ IH]; simpl.
  - unfold Py.in_list. rewrite bool_decide_eq_false_2.
    + simpl. by rewrite extract_type_info_truthy.
    + rewrite elem_of_cons, elem_of_nil. tauto.
  - rewrite Hd. exact IH.
Qed.

End resolver_results.

(** X4: what [resolve_datatype_reference] returns does not depend on the
    recursion budget once the budget is enough, and a signature that it
    returns is never the empty string. *)
Theorem resolve_datatype_reference_stable (budget budget' : nat) (datatype_name : string)
    (xml_root : Elem) (visited : option (gset string)) (r : option string) :
  resolve_datatype_reference budget datatype_name xml_root visited = Ok r ->
  (budget <= budget' ->
   resolve_datatype_reference budget' datatype_name xml_root visited = Ok r) /\
  r <> Some "".
Proof.
  unfold resolve_datatype_reference.
  destruct (bool_decide (datatype_name ∈ default ∅ visited)); [by intros [= <-]|].
  destruct (find_dataType xml_root datatype_name) as [dt_elem|]; [|by intros [= <-]].
  destruct (walk_base_chain budget dt_elem xml_root
              ({[datatype_name]} ∪ default ∅ visited)) as [r0|] eqn:Hwalk; [|done].
  simpl. intros Hr. split.
  - intros Hle. by rewrite (walk_base_chain_mono xml_root _ budget' _ _ _ Hwalk Hle).
  - intros ->. destruct r0 as [t|].
    + destruct (Py.truthy t) eqn:Ht; [by injection Hr as ->|].
      injection Hr as Hr. by apply head_filter_Some in Hr as [_ ?].
    + injection Hr as Hr. by apply head_filter_Some in Hr as [_ ?].
Qed.

(** X4 at [chain_root]: three nested calls are enough, so are five. *)
Lemma resolve_datatype_reference_stable_witness :
  resolve_datatype_reference 5 "Alias" chain_root None = Ok (Some "string(64)").
Proof.
  destruct (resolve_datatype_reference_stable 3 5 "Alias" chain_root None
              (Some "string(64)")) as [Hmore _]; [reflexivity|].
  apply Hmore. lia.
Defined.

(** X5: a definition is rendered from its first child that is not a
    description: the walk returns the rendering of that child at once, and
    neither elements further down, nor constraints of the definition itself,
    nor its base are looked at.  The base chain is followed only from
    definitions without such a child. *)
Theorem first_child_decides (budget : nat) (xml_root elem : Elem) (visited : gset string)
    (descriptions rest : list Elem) (child : Elem) :
  children elem = descriptions ++ child :: rest ->
  Forall (fun d => local_name d = "description") descriptions ->
  local_name child <> "description" ->
  local_name child <> "" ->
  walk_base_chain (S budget) elem xml_root visited = Ok (Some (extract_type_info child)).
Proof.
  intros Hchildren Hdescriptions Hother Hname. simpl. unfold local_type.
  by rewrite (first_child_type_first elem descriptions rest child).
Qed.

(** X5 at [short_root]: [Short] names the base [Text], a string of at most
    64 characters, and carries a size of at most 32; it resolves to the tag
    of its size child. *)
Lemma first_child_decides_witness :
  walk_base_chain 1 dt_Short short_root {["Short"]} = Ok (Some "size") /\
  resolve_datatype_reference 1 "Short" short_root None = Ok (Some "size").
Proof.
  split; [|reflexivity].
  apply (first_child_decides 0 short_root dt_Short {["Short"]}
           [mkElem "description" ∅ (Some "A short text.") None []] []
           (mkElem "size" (<["maxLength" := "32"]> ∅) None None []));
    [reflexivity| |discriminate|discriminate].
  constructor; [reflexivity|constructor].
Defined.

(** ** Template and reference tables *)

(** X6: [extract_template_data] returns nothing exactly for a name that
    the table does not hold; a field that the template itself fills is
    returned as it is, whatever its parents hold, and a template without
    parent, or whose parent the table does not hold, is returned with its own
    fields. *)
Theorem extract_template_data_own (budget : nat) (template_name : string)
    (templates_dict : list (string * Template)) (r : option TemplateData) :
  extract_template_data budget template_name templates_dict = Ok r ->
  (r = None <-> dict_get template_name templates_dict = None) /\
  (forall template_data data,
     dict_get template_name templates_dict = Some template_data ->
     r = Some data ->
     (tpl_description template_data <> "" ->
      description data = tpl_description template_data) /\
     (tpl_data_type template_data <> "" ->
      data_type data = tpl_data_type template_data) /\
     (tpl_default_value template_data <> "" ->
      default_value data = tpl_default_value template_data) /\
     (tpl_template template_data = "" \/
      dict_get (tpl_template template_data) templates_dict = None ->
      data = mkTemplateData (tpl_description template_data)
               (tpl_data_type template_data) (tpl_default_value template_data))).
Proof.
  destruct budget as [|budget]; [done|]. simpl.
  destruct (dict_get template_name templates_dict) as [t|] eqn:Hget.
  - destruct (Py.truthy (tpl_template t)) eqn:Hparent.
    + destruct (extract_template_data budget (tpl_template t) templates_dict)
        as [parent|] eqn:Hrec; [|done]. simpl.
      destruct parent as [parent_data|]; intros [= <-].
      * split; [done|]. intros ? data [= <-] [= <-]. simpl.
        split; [|split; [|split]].
        -- intros H. by rewrite (truthy_true _ H).
        -- intros H. by rewrite (truthy_true _ H).
        -- intros H. by rewrite (truthy_true _ H).
        -- intros [Hroot|Hunknown]; [by rewrite Hroot in Hparent|].
           destruct budget as [|budget]; [done|]. simpl in Hrec.
           by rewrite Hunknown in Hrec.
      * split; [done|]. by intros ? data [= <-] [= <-].
    + intros [= <-]. split; [done|]. by intros ? data [= <-] [= <-].
  - intros [= <-]. by split.
Qed.

(** X6 at [nested_templates]: [Child] keeps its own default value 1 over
    the 0 of [Base]. *)
Lemma extract_template_data_own_witness :
  exists data,
    extract_template_data 2 "Child" nested_templates = Ok (Some data) /\
    default_value data = "1".
Proof.
  destruct (extract_template_data_own 2 "Child" nested_templates
              (Some (mkTemplateData "A counter." "unsignedInt" "1")) eq_refl) as [_ Hown].
  exists (mkTemplateData "A counter." "unsignedInt" "1"). split; [reflexivity|].
  destruct (Hown (mkTemplate "Child" "" "Base" "" "" "1")
              (mkTemplateData "A counter." "unsignedInt" "1") eq_refl eq_refl)
    as (_ & _ & Hdefault & _).
  apply Hdefault. discriminate.
Defined.

Section reference_table.

Lemma last_snoc_omap {A B} (f : A -> option B) (l : list A) (x : A) :
  last (omap f (l ++ [x]))
  = match f x with Some y => Some y | None => last (omap f l) end.
Proof.
  rewrite omap_app. simpl. destruct (f x) as [y|]; simpl.
  - by rewrite last_snoc.
  - by rewrite app_nil_r.
Qed.

Lemma fold_references_lookup (refs : list Elem) (name : string) :
  fold_left (fun references ref =>
               let ref_name := get_or_empty ref "name" in
               let ref_target := get_or_empty ref "targetParamRef" in
               if Py.truthy ref_name && Py.truthy ref_target
               then <[ref_name := ref_target]> references
               else references) refs (∅ : gmap string string) !! name
  = last (omap (reference_target name) refs).
Proof.
  induction refs as [|ref refs IH] using rev_ind; [done|].
  rewrite fold_left_app, last_snoc_omap. simpl. unfold reference_target at 1.
  destruct (Py.truthy (get_or_empty ref "name")) eqn:Hname;
    destruct (Py.truthy (get_or_empty ref "targetParamRef")) eqn:Htarget; simpl;
    rewrite ?andb_false_r; try exact IH.
  rewrite andb_true_r. case_bool_decide as Heq.
  - rewrite Heq. apply lookup_insert_eq.
  - rewrite lookup_insert_ne by done. exact IH.
Qed.

End reference_table.

(** X7: a reference resolves through the table of a model to the target of
    the last reference element of that name, in document order, among those
    with a name and a target; its description is [Reference to: ] followed
    by that target, its data type is empty; a name without such an element
    does not resolve. *)
Theorem resolve_built_reference (model : Elem) (ref_name : string) :
  build_references model !! ref_name
  = last (omap (reference_target ref_name)
            (List.filter (tag_has "reference") (iter model))) /\
  resolve_reference ref_name (build_references model)
  = (fun target => mkRefData ("Reference to: " +:+ target) "")
      <$> last (omap (reference_target ref_name)
                  (List.filter (tag_has "reference") (iter model))).
Proof.
  assert (build_references model !! ref_name
          = last (omap (reference_target ref_name)
                    (List.filter (tag_has "reference") (iter model)))) as Hlookup.
  { unfold build_references. apply fold_references_lookup. }
  split; [done|]. unfold resolve_reference. rewrite Hlookup.
  by destruct (last _).
Qed.

Example resolve_built_reference_ex :
  resolve_reference "Lower" (build_references references_model)
  = Some (mkRefData "Reference to: Device.B.Lower" "").
Proof. vm_compute. reflexivity. Qed.

(** ** Records and rows *)

Section record_frame.

Lemma process_syntax_head (budget : nat) (xml_root : Elem) (p p' : ParamData)
    (syntax_elem : Elem) :
  process_syntax budget xml_root p syntax_elem = Ok p' -> record_head p' = record_head p.
Proof.
  unfold process_syntax. destruct (scan_defaults _ _) as [od found].
  destruct (Py.truthy_opt found).
  - destruct (resolve_datatype_reference _ _ _ _) as [r|]; [|done]. simpl.
    destruct (Py.truthy_opt r); by intros [= <-].
  - by intros [= <-].
Qed.

Lemma process_syntaxes_head (budget : nat) (xml_root : Elem) (syntax_elems : list Elem)
    (p p' : ParamData) :
  process_syntaxes budget xml_root syntax_elems p = Ok p' -> record_head p' = record_head p.
Proof.
  revert p. induction syntax_elems as [|e l IH]; intros p; simpl.
  - by intros [= <-].
  - destruct (process_syntax budget xml_root p e) as [q|] eqn:Hq; [|done]. simpl.
    intros H. rewrite (IH _ H). by apply process_syntax_head in Hq.
Qed.

Lemma overlay_template_head (template_data : TemplateData) (p : ParamData) :
  record_head (overlay_template template_data p) = record_head p.
Proof.
  destruct p as [on pn fp ac ve de dt od io].
  destruct template_data as [td tt tv]. unfold overlay_template. simpl.
  destruct de, dt, od, td, tt, tv; done.
Qed.

Lemma overlay_reference_head (ref_data : RefData) (p : ParamData) :
  record_head (overlay_reference ref_data p) = record_head p.
Proof.
  destruct p as [on pn fp ac ve de dt od io].
  destruct ref_data as [rd rt]. unfold overlay_reference. simpl.
  destruct de, dt, od; done.
Qed.

Lemma extract_parameter_data_head (budget : nat) (param_elem : Elem)
    (parent_object_name : string) (references_dict : gmap string string)
    (templates_dict : list (string * Template))
    (html_descriptions : list (string * string)) (xml_root : Elem) (p : ParamData) :
  extract_parameter_data budget param_elem parent_object_name references_dict
    templates_dict html_descriptions xml_root = Ok p ->
  record_head p
  = (parent_object_name, get_or_empty param_elem "name",
     full_path_of param_elem parent_object_name,
     get_or_empty param_elem "access", get_or_empty param_elem "version", false).
Proof.
  unfold extract_parameter_data, typed_parameter.
  destruct (process_syntaxes _ _ _ _) as [typed|] eqn:Htyped; [|done]. simpl.
  apply process_syntaxes_head in Htyped.
  unfold apply_template.
  assert (forall q, record_head (apply_reference (get_or_empty param_elem "ref")
                                   references_dict q) = record_head q) as Hreference.
  { intros q. unfold apply_reference. destruct (Py.truthy _); [|done].
    destruct (resolve_reference _ _); [apply overlay_reference_head|done]. }
  destruct (Py.truthy (get_or_empty param_elem "template")).
  - destruct (extract_template_data _ _ _) as [[t|]|]; simpl; [| |done].
    + intros [= <-]. by rewrite Hreference, overlay_template_head, Htyped.
    + intros [= <-]. by rewrite Hreference, Htyped.
  - simpl. intros [= <-]. by rewrite Hreference, Htyped.
Qed.

End record_frame.

(** X8: whatever syntax, template and reference supply, the record that
    [extract_parameter_data] returns carries the name of the object, the
    attributes [name], [access] and [version] of the parameter and the full
    path built from the two names; it is not marked as an object; and its
    full path holds no space character and neither starts nor ends with a
    dot. *)
Theorem extract_parameter_data_frame (budget : nat) (param_elem : Elem)
    (parent_object_name : string) (references_dict : gmap string string)
    (templates_dict : list (string * Template))
    (html_descriptions : list (string * string)) (xml_root : Elem) (p : ParamData) :
  extract_parameter_data budget param_elem parent_object_name references_dict
    templates_dict html_descriptions xml_root = Ok p ->
  Object_Name p = parent_object_name /\
  Parameter_Name p = get_or_empty param_elem "name" /\
  Access p = get_or_empty param_elem "access" /\
  Version p = get_or_empty param_elem "version" /\
  Is_Object p = false /\
  Full_Path p
  = Py.rstrip_by (Py.is_char ".")
      (Py.strip_by (Py.is_char ".")
         (Py.replace " " ""
            (Py.rstrip_by (Py.is_char ".") parent_object_name +:+ "." +:+
             get_or_empty param_elem "name"))) /\
  all_chars (fun c => c <> space) (Full_Path p) /\
  head (chars (Full_Path p)) <> Some dot /\
  last (chars (Full_Path p)) <> Some dot.
Proof.
  intros Hp. apply extract_parameter_data_head in Hp. unfold record_head in Hp.
  injection Hp as -> -> Hpath -> -> ->.
  split; [done|]. split; [done|]. split; [done|]. split; [done|]. split; [done|].
  rewrite Hpath. unfold full_path_of. simpl. split; [done|]. split; [|split].
  - unfold Py.strip_by. apply rstrip_all, rstrip_all, lstrip_all, remove_space_free.
  - apply head_kept_chars. unfold Py.strip_by. apply rstrip_head, rstrip_head, lstrip_head.
  - apply rstrip_last.
Qed.

(** X8 at [list_int_parameter] under an object whose name holds spaces and
    dots. *)
Lemma extract_parameter_data_frame_witness :
  exists p,
    extract_parameter_data 0 list_int_parameter " .Device. WiFi.." ∅ [] [] empty_root = Ok p /\
    Full_Path p = "Device.WiFi.Ports".
Proof.
  eexists. split; [reflexivity|].
  destruct (extract_parameter_data_frame 0 list_int_parameter " .Device. WiFi.." ∅ [] []
              empty_root _ eq_refl) as (_ & _ & _ & _ & _ & Hpath & _).
  rewrite Hpath. vm_compute. reflexivity.
Defined.

Section emitted_rows.

Lemma proper_name_check (s : string) :
  negb (Py.truthy s) || bool_decide (Py.strip s = ".") = false -> proper_name s.
Proof.
  intros H. apply orb_false_iff in H as [Hname Hdot]. split.
  - intros ->. done.
  - by apply bool_decide_eq_false_1 in Hdot.
Qed.

Lemma process_parameters_proper (budget : nat) (parameters_found : list Elem)
    (object_name : string) (references : gmap string string)
    (templates : list (string * Template)) (html_descriptions : list (string * string))
    (root : Elem) (all_data : list Row) :
  proper_name object_name -> Forall proper_row all_data ->
  Forall proper_row
    (process_parameters budget parameters_found object_name references templates
       html_descriptions root all_data).1.
Proof.
  intros Hobject. revert all_data.
  induction parameters_found as [|param_elem rest IH]; intros all_data Hall; [done|].
  simpl.
  destruct (extract_parameter_data _ _ _ _ _ _ _) as [p|] eqn:Hp; [|done].
  apply IH.
  destruct (negb (Py.truthy (Parameter_Name p))
            || bool_decide (Py.strip (Parameter_Name p) = ".")) eqn:Hname; [done|].
  destruct (negb (Py.truthy (Full_Path p))
            || bool_decide (Py.strip (Full_Path p) = ".")) eqn:Hpath; [done|].
  apply Forall_app. split; [done|]. constructor; [|constructor].
  apply extract_parameter_data_head in Hp. unfold record_head in Hp.
  simpl. split; [|split; [|split]].
  - by injection Hp as -> _ _ _ _ _.
  - by apply proper_name_check.
  - by apply proper_name_check.
  - by injection Hp as _ _ _ _ _ ->.
Qed.

Lemma process_objects_proper (budget : nat) (objects_found : list Elem)
    (references : gmap string string) (templates : list (string * Template))
    (html_descriptions : list (string * string)) (root : Elem) (all_data : list Row) :
  Forall proper_row all_data ->
  Forall proper_row
    (process_objects budget objects_found references templates html_descriptions root
       all_data).1.
Proof.
  revert all_data. induction objects_found as [|obj_elem rest IH]; intros all_data Hall;
    [done|].
  simpl.
  destruct (negb (Py.truthy (get_or_empty obj_elem "name"))
            || bool_decide (Py.strip (get_or_empty obj_elem "name") = ".")) eqn:Hname;
    [by apply IH|].
  apply proper_name_check in Hname.
  pose proof (process_parameters_proper budget
                (List.filter (tag_has "parameter") (children obj_elem))
                (get_or_empty obj_elem "name") references templates html_descriptions root
                (all_data ++ [ObjectRow (extract_object_data obj_elem html_descriptions)])
                Hname) as Hparams.
  destruct (process_parameters _ _ _ _ _ _ _ _) as [rows [|]].
  - apply Hparams, Forall_app. split; [done|]. by constructor.
  - apply IH, Hparams, Forall_app. split; [done|]. by constructor.
Qed.

End emitted_rows.

(** X9: no degenerate record is emitted.  Every object row of
    [process_xml_file] has a name that is neither empty nor a bare dot, and
    every parameter row has such a name, such a full path and the name of
    such an object; object rows are marked as objects and parameter rows are
    not.  The parameters of a dropped object are dropped with it. *)
Theorem process_xml_file_proper (budget : nat) (root : Elem)
    (html_descriptions : list (string * string)) :
  Forall proper_row (process_xml_file budget root html_descriptions).
Proof.
  unfold process_xml_file.
  destruct (head (List.filter (tag_has "model") (children root))); [|done].
  by apply process_objects_proper.
Qed.

Example process_xml_file_degenerate_ex :
  process_xml_file 0 degenerate_root []
  = [ ObjectRow (mkObjectData "Device." "" "" "" "" "" true);
      ParamRow (mkParamData "Device." " Up Time " "Device.UpTime" "" "" sentinel "" "" false) ].
Proof. vm_compute. reflexivity. Qed.

(** ** Recursion budget of a run *)

Section budget.

Variables (budget budget' : nat).
Hypothesis Hbudget : budget <= budget'.

Lemma resolve_datatype_reference_mono (name : string) (xml_root : Elem)
    (visited : option (gset string)) (r : option string) :
  resolve_datatype_reference budget name xml_root visited = Ok r ->
  resolve_datatype_reference budget' name xml_root visited = Ok r.
Proof.
  unfold resolve_datatype_reference.
  destruct (bool_decide (name ∈ default ∅ visited)); [done|].
  destruct (find_dataType xml_root name) as [dt_elem|]; [|done].
  destruct (walk_base_chain budget dt_elem xml_root ({[name]} ∪ default ∅ visited))
    as [r0|] eqn:Hwalk; [|done].
  by rewrite (walk_base_chain_mono xml_root _ budget' _ _ _ Hwalk Hbudget).
Qed.

Lemma process_syntax_mono (xml_root : Elem) (p p' : ParamData) (syntax_elem : Elem) :
  process_syntax budget xml_root p syntax_elem = Ok p' ->
  process_syntax budget' xml_root p syntax_elem = Ok p'.
Proof.
  unfold process_syntax. destruct (scan_defaults _ _) as [od found].
  destruct (Py.truthy_opt found); [|done].
  destruct (resolve_datatype_reference budget _ _ _) as [r|] eqn:Hr; [|done].
  by rewrite (resolve_datatype_reference_mono _ _ _ _ Hr).
Qed.

Lemma process_syntaxes_mono (xml_root : Elem) (syntax_elems : list Elem)
    (p p' : ParamData) :
  process_syntaxes budget xml_root syntax_elems p = Ok p' ->
  process_syntaxes budget' xml_root syntax_elems p = Ok p'.
Proof.
  revert p. induction syntax_elems as [|e l IH]; intros p; [done|]. simpl.
  destruct (process_syntax budget xml_root p e) as [q|] eqn:Hq; [|done].
  rewrite (process_syntax_mono _ _ _ _ Hq). simpl. apply IH.
Qed.

Lemma extract_parameter_data_mono (param_elem : Elem) (parent_object_name : string)
    (references_dict : gmap string string) (templates_dict : list (string * Template))
    (html_descriptions : list (string * string)) (xml_root : Elem) (p : ParamData) :
  extract_parameter_data budget param_elem parent_object_name references_dict
    templates_dict html_descriptions xml_root = Ok p ->
  extract_parameter_data budget' param_elem parent_object_name references_dict
    templates_dict html_descriptions xml_root = Ok p.
Proof.
  unfold extract_parameter_data, typed_parameter.
  destruct (process_syntaxes budget _ _ _) as [typed|] eqn:Htyped; [|done].
  rewrite (process_syntaxes_mono _ _ _ _ Htyped). simpl. unfold apply_template.
  destruct (Py.truthy (get_or_empty param_elem "template")); [|done].
  destruct (extract_template_data budget _ _) as [t|] eqn:Ht; [|done].
  by rewrite (extract_template_data_mono _ _ budget' _ _ Ht Hbudget).
Qed.

Lemma process_parameters_extends (b : nat) (parameters_found : list Elem)
    (object_name : string) (references : gmap string string)
    (templates : list (string * Template)) (html_descriptions : list (string * string))
    (root : Elem) (all_data : list Row) :
  all_data `prefix_of`
    (process_parameters b parameters_found object_name references templates
       html_descriptions root all_data).1.
Proof.
  revert all_data. induction parameters_found as [|e l IH]; intros all_data; [done|].
  simpl. destruct (extract_parameter_data _ _ _ _ _ _ _) as [p|]; [|done].
  etrans; [|apply IH].
  destruct (_ || _); [done|]. destruct (_ || _); [done|]. by apply prefix_app_r.
Qed.

Lemma process_objects_extends (b : nat) (objects_found : list Elem)
    (references : gmap string string) (templates : list (string * Template))
    (html_descriptions : list (string * string)) (root : Elem) (all_data : list Row) :
  all_data `prefix_of`
    (process_objects b objects_found references templates html_descriptions root
       all_data).1.
Proof.
  revert all_data. induction objects_found as [|e l IH]; intros all_data; [done|].
  simpl. destruct (_ || _); [apply IH|].
  pose proof (process_parameters_extends b (List.filter (tag_has "parameter") (children e))
                (obj_Object_Name (extract_object_data e html_descriptions)) references
                templates html_descriptions root
                (all_data ++ [ObjectRow (extract_object_data e html_descriptions)]))
    as Hparams.
  destruct (process_parameters _ _ _ _ _ _ _ _) as [rows [|]]; simpl in *.
  - etrans; [|exact Hparams]. by apply prefix_app_r.
  - etrans; [|apply IH]. etrans; [|exact Hparams]. by apply prefix_app_r.
Qed.

(** A run with the larger budget repeats the run with the smaller one as
    long as that one meets no [RecursionError], and goes on from there. *)
Lemma process_parameters_mono (parameters_found : list Elem)
    (object_name : string) (references : gmap string string)
    (templates : list (string * Template)) (html_descriptions : list (string * string))
    (root : Elem) (all_data : list Row) :
  let small := process_parameters budget parameters_found object_name references
                 templates html_descriptions root all_data in
  let large := process_parameters budget' parameters_found object_name references
                 templates html_descriptions root all_data in
  small.1 `prefix_of` large.1 /\ (small.2 = false -> large = small).
Proof.
  revert all_data. induction parameters_found as [|e l IH]; intros all_data; [done|].
  simpl.
  destruct (extract_parameter_data budget _ _ _ _ _ _) as [p|] eqn:Hp.
  - rewrite (extract_parameter_data_mono _ _ _ _ _ _ _ Hp). apply IH.
  - simpl. split; [|done].
    destruct (extract_parameter_data budget' _ _ _ _ _ _) as [p|]; [|done].
    etrans; [|apply process_parameters_extends].
    destruct (_ || _); [done|]. destruct (_ || _); [done|]. by apply prefix_app_r.
Qed.

Lemma process_objects_mono (objects_found : list Elem)
    (references : gmap string string) (templates : list (string * Template))
    (html_descriptions : list (string * string)) (root : Elem) (all_data : list Row) :
  let small := process_objects budget objects_found references templates
                 html_descriptions root all_data in
  let large := process_objects budget' objects_found references templates
                 html_descriptions root all_data in
  small.1 `prefix_of` large.1 /\ (small.2 = false -> large = small).
Proof.
  revert all_data. induction objects_found as [|e l IH]; intros all_data; [done|].
  simpl. destruct (_ || _); [apply IH|].
  pose proof (process_parameters_mono (List.filter (tag_has "parameter") (children e))
                (obj_Object_Name (extract_object_data e html_descriptions)) references
                templates html_descriptions root
                (all_data ++ [ObjectRow (extract_object_data e html_descriptions)]))
    as [Hprefix Hsame].
  destruct (process_parameters budget _ _ _ _ _ _ _) as [rows [|]] eqn:Hsmall; simpl in *.
  - split; [|done].
    destruct (process_parameters budget' _ _ _ _ _ _ _) as [rows' [|]]; simpl in *;
      [done|].
    etrans; [exact Hprefix|]. apply process_objects_extends.
  - rewrite (Hsame eq_refl). apply IH.
Qed.

End budget.

(** X10: a larger recursion budget never changes a row that a run has
    emitted: the rows of the run with the smaller budget are the first rows
    of the run with the larger one.  A [RecursionError] ends the run and keeps
    the rows emitted before it. *)
Theorem process_xml_file_budget (budget budget' : nat) (root : Elem)
    (html_descriptions : list (string * string)) :
  budget <= budget' ->
  process_xml_file budget root html_descriptions
    `prefix_of` process_xml_file budget' root html_descriptions.
Proof.
  intros Hbudget. unfold process_xml_file.
  destruct (head (List.filter (tag_has "model") (children root))); [|done].
  by apply process_objects_mono.
Qed.

(** X10 at [templated_root]: with a budget of one call the run ends at the
    parameter whose template has a parent, after two rows; with a budget of
    two it emits all four. *)
Lemma process_xml_file_budget_witness :
  process_xml_file 1 templated_root [] `prefix_of` process_xml_file 2 templated_root [] /\
  length (process_xml_file 1 templated_root []) = 2 /\
  length (process_xml_file 2 templated_root []) = 4.
Proof.
  split; [|split; vm_compute; reflexivity].
  apply (process_xml_file_budget 1 2 templated_root []). lia.
Defined.

(** ** Inline hexBinary *)

Lemma hexbinary_type_parentheses (e : Elem) :
  hexbinary_type e =
  "hexbinary" +:+
  (if Py.nonempty (omap size_part (findall_desc "size" e))
   then "(" +:+ Py.join ", " (omap size_part (findall_desc "size" e)) +:+ ")"
   else "").
Proof. unfold hexbinary_type. by destruct (Py.nonempty _). Qed.

(** X11: an inline hexBinary, alone in its syntax block or as the item of
    the list that is alone there, is rendered with every size entry below it,
    at any depth and in document order, joined with a comma and a space
    between parentheses; without such an entry it is rendered bare. *)
Theorem hexbinary_sizes (syntax_elem item : Elem) (object_default : string) :
  local_name_lc item = "hexbinary" ->
  children syntax_elem = [item] \/
  (exists list_elem before after,
     children syntax_elem = [list_elem] /\
     local_name_lc list_elem = "list" /\
     children list_elem = before ++ item :: after /\
     Forall (fun e => local_name_lc e <> "hexbinary") before) ->
  finish_type (inline_syntax syntax_elem object_default)
  = "hexbinary" +:+
    (if Py.nonempty (omap size_part (findall_desc "size" item))
     then "(" +:+ Py.join ", " (omap size_part (findall_desc "size" item)) +:+ ")"
     else "").
Proof.
  intros Hitem Hshape. rewrite <- hexbinary_type_parentheses.
  assert (Py.truthy (hexbinary_type item) = true) as Htruthy.
  { unfold hexbinary_type. by destruct (Py.nonempty _). }
  unfold inline_syntax.
  destruct Hshape as [->|(list_elem & before & after & -> & Hlist & Hchildren & Hbefore)];
    simpl; unfold syntax_step.
  - rewrite Hitem. simpl. unfold finish_type. simpl. rewrite Htruthy. by rewrite Htruthy.
  - rewrite Hlist. simpl.
    assert (head (List.filter (fun child => bool_decide (local_name_lc child = "hexbinary"))
                    (children list_elem)) = Some item) as ->.
    { rewrite Hchildren. clear Hchildren.
      induction Hbefore as [|e l He _ IH]; simpl.
      - by rewrite bool_decide_eq_true_2.
      - by rewrite bool_decide_eq_false_2. }
    unfold finish_type. simpl. rewrite Htruthy. by rewrite Htruthy.
Qed.

(** X11 at [hex_list_syntax]. *)
Lemma hexbinary_sizes_witness :
  finish_type (inline_syntax hex_list_syntax "") = "hexbinary(4:8, 16:32)".
Proof.
  rewrite (hexbinary_sizes hex_list_syntax hex_item ""); [reflexivity|reflexivity|].
  right. exists (mkElem "list" ∅ None None [hex_item]), [], [].
  repeat split. constructor.
Defined.

(** ** Object paths *)

Section trailing_dot.

Lemma lower_app_dot (s : string) : Py.lower (s +:+ ".") = Py.lower s +:+ ".".
Proof.
  induction s as [|c r IH]; [done|].
  change (String (Py.lower_char c) (Py.lower (r +:+ "."))
          = String (Py.lower_char c) (Py.lower r +:+ ".")). by rewrite IH.
Qed.

Lemma remove_space_app_dot (s : string) :
  Py.replace " " "" (s +:+ ".") = Py.replace " " "" s +:+ ".".
Proof.
  induction s as [|c r IH]; [done|].
  change (String c r +:+ ".") with (String c (r +:+ ".")).
  rewrite !remove_space_step, IH. by case_bool_decide.
Qed.

Lemma rstrip_app_dot (s : string) :
  Py.rstrip_by (Py.is_char ".") (s +:+ ".") = Py.rstrip_by (Py.is_char ".") s.
Proof.
  induction s as [|c r IH]; [done|].
  change (String c r +:+ ".") with (String c (r +:+ ".")). simpl. by rewrite IH.
Qed.

Lemma strip_app_dot (s : string) :
  Py.strip_by (Py.is_char ".") (s +:+ ".") = Py.strip_by (Py.is_char ".") s.
Proof.
  unfold Py.strip_by. induction s as [|c r IH]; [done|].
  change (String c r +:+ ".") with (String c (r +:+ ".")). simpl.
  destruct (Py.is_char "." c); [exact IH|].
  change (String c (r +:+ ".")) with (String c r +:+ "."). apply rstrip_app_dot.
Qed.

Lemma normalize_path_app_dot (s : string) : normalize_path (s +:+ ".") = normalize_path s.
Proof. unfold normalize_path. by rewrite lower_app_dot, remove_space_app_dot, strip_app_dot. Qed.

End trailing_dot.

(** X12: a dot at the end of a path does not count for the normalised
    path, so an object is looked up in the documentation index under the
    normalised form of its name whether the name ends with a dot or not; an
    entry found there is its description, whatever the object embeds. *)
Theorem object_lookup (obj_elem : Elem) (html_descriptions : list (string * string))
    (path d : string) :
  normalize_path (path +:+ ".") = normalize_path path /\
  (dict_get (normalize_path (get_or_empty obj_elem "name")) html_descriptions = Some d ->
   obj_Description (extract_object_data obj_elem html_descriptions) = d).
Proof.
  split; [apply normalize_path_app_dot|]. intros Hd. unfold extract_object_data. simpl.
  destruct (Py.endswith "." (get_or_empty obj_elem "name")).
  - by rewrite Hd.
  - by rewrite normalize_path_app_dot, Hd.
Qed.

(** X12 at an object named without the final dot and documented with it. *)
Lemma object_lookup_witness :
  obj_Description
    (extract_object_data (mkElem "object" (<["name" := "Device.WiFi.Radio.{i}"]> ∅) None None [])
       [(normalize_path "Device.WiFi.Radio.{i}.", "The radio table.")])
  = "The radio table.".
Proof.
  destruct (object_lookup (mkElem "object" (<["name" := "Device.WiFi.Radio.{i}"]> ∅) None None [])
              [(normalize_path "Device.WiFi.Radio.{i}.", "The radio table.")]
              "" "The radio table.") as [_ Hlookup].
  apply Hlookup. vm_compute. reflexivity.
Defined.

(** ** Table of templates *)

Section template_table.

Lemma dict_get_set {V} (key key' : string) (v : V) (d : list (string * V)) :
  dict_get key' (dict_set key v d)
  = if bool_decide (key' = key) then Some v else dict_get key' d.
Proof.
  unfold dict_get. induction d as [|[k w] d IH]; simpl.
  - destruct (decide (key' = key)) as [->|Hne].
    + by rewrite !bool_decide_eq_true_2.
    + rewrite !bool_decide_eq_false_2; [done|done|congruence].
  - destruct (decide (k = key)) as [->|Hk].
    + rewrite (bool_decide_eq_true_2 (key = key)) by done. simpl.
      destruct (decide (key' = key)) as [->|Hne].
      * by rewrite !bool_decide_eq_true_2.
      * rewrite !(bool_decide_eq_false_2 (key = key')) by congruence.
        by rewrite bool_decide_eq_false_2.
    + rewrite (bool_decide_eq_false_2 (k = key)) by done. simpl.
      destruct (decide (k = key')) as [->|Hk'].
      * rewrite bool_decide_eq_true_2 by done. by rewrite bool_decide_eq_false_2.
      * rewrite bool_decide_eq_false_2 by done. exact IH.
Qed.

Lemma dict_get_key {V} (key : string) (v : V) (d : list (string * V)) :
  dict_get key d = Some v -> key ∈ map fst d.
Proof.
  unfold dict_get. induction d as [|[k w] d IH]; [done|]. simpl.
  destruct (decide (k = key)) as [->|Hk].
  - intros _. left.
  - rewrite bool_decide_eq_false_2 by done. intros H. right. by apply IH.
Qed.

Lemma dict_set_keys {V} (key : string) (v : V) (d : list (string * V)) :
  map fst (dict_set key v d)
  = if bool_decide (key ∈ map fst d) then map fst d else map fst d ++ [key].
Proof.
  induction d as [|[k w] d IH]; [done|]. simpl.
  destruct (decide (k = key)) as [->|Hk].
  - rewrite (bool_decide_eq_true_2 (key = key)) by done. simpl.
    rewrite bool_decide_eq_true_2; [done|left].
  - rewrite (bool_decide_eq_false_2 (k = key)) by done. simpl. rewrite IH.
    destruct (decide (key ∈ map fst d)) as [Hin|Hin].
    + rewrite !bool_decide_eq_true_2; [done|by right|done].
    + rewrite !bool_decide_eq_false_2; [done| |done].
      intros Hin'. apply elem_of_cons in Hin' as [->|?]; done.
Qed.

Lemma dict_set_NoDup {V} (key : string) (v : V) (d : list (string * V)) :
  NoDup (map fst d) -> NoDup (map fst (dict_set key v d)).
Proof.
  intros Hd. rewrite dict_set_keys. case_bool_decide as Hin; [done|].
  apply NoDup_app. split; [done|]. split; [|apply NoDup_singleton].
  intros x Hx Hkey. apply list_elem_of_singleton in Hkey. by subst x.
Qed.

Lemma fills_refl (t : Template) : fills t t.
Proof. by repeat split. Qed.

Lemma fills_trans (t1 t2 t3 : Template) : fills t1 t2 -> fills t2 t3 -> fills t1 t3.
Proof.
  intros (Hn & Hr & Hp & Hd & Ht & Hv) (Hn' & Hr' & Hp' & Hd' & Ht' & Hv').
  repeat split; try congruence.
  - intros H. rewrite <- (Hd H). apply Hd'. by rewrite (Hd H).
  - intros H. rewrite <- (Ht H). apply Ht'. by rewrite (Ht H).
  - intros H. rewrite <- (Hv H). apply Hv'. by rewrite (Hv H).
Qed.

(** What the first pass keeps: a key is the name of its entry and is not
    empty, and no key stands twice. *)
Lemma collect_templates_named (templates_found : list Elem) :
  NoDup (map fst (collect_templates templates_found)) /\
  forall name t, dict_get name (collect_templates templates_found) = Some t ->
                 tpl_name t = name /\ name <> "".
Proof.
  unfold collect_templates.
  induction templates_found as [|e l IH] using rev_ind.
  - split; [constructor|done].
  - rewrite fold_left_app. simpl. destruct IH as [Hnodup Hnamed].
    destruct (Py.truthy (tpl_name (extract_template_data_from_xml e))) eqn:Hname;
      [|done].
    split; [by apply dict_set_NoDup|].
    intros name t. rewrite dict_get_set. case_bool_decide as Hk.
    + intros [= <-]. split; [done|]. intros Hempty. rewrite Hk in Hempty.
      by rewrite Hempty in Hname.
    + apply Hnamed.
Qed.

(** What the second pass keeps, one entry at a time. *)
Lemma inherit_template_fills (raw d : list (string * Template)) (key : string) :
  map fst d = map fst raw ->
  (forall name t', dict_get name d = Some t' ->
                   exists t, dict_get name raw = Some t /\ fills t t') ->
  map fst (inherit_template d key) = map fst raw /\
  (forall name t', dict_get name (inherit_template d key) = Some t' ->
                   exists t, dict_get name raw = Some t /\ fills t t').
Proof.
  intros Hkeys Hfills. unfold inherit_template.
  destruct (dict_get key d) as [td|] eqn:Hget; [|done].
  destruct (Py.truthy (tpl_template td)); [|done].
  destruct (dict_get (tpl_template td) d) as [pd|]; [|done].
  split.
  - rewrite dict_set_keys, bool_decide_eq_true_2; [done|]. by apply dict_get_key in Hget.
  - intros name t'. rewrite dict_get_set. case_bool_decide as Hk; [|apply Hfills].
    subst name. intros [= <-]. destruct (Hfills key td Hget) as (t & Ht & Hfill).
    exists t. split; [done|]. eapply fills_trans; [exact Hfill|].
    repeat split; simpl; intros H; by rewrite (truthy_true _ H).
Qed.

Lemma fold_inherit_template_fills (raw d : list (string * Template)) (keys : list string) :
  map fst d = map fst raw ->
  (forall name t', dict_get name d = Some t' ->
                   exists t, dict_get name raw = Some t /\ fills t t') ->
  map fst (fold_left inherit_template keys d) = map fst raw /\
  (forall name t', dict_get name (fold_left inherit_template keys d) = Some t' ->
                   exists t, dict_get name raw = Some t /\ fills t t').
Proof.
  revert d. induction keys as [|key keys IH]; intros d Hkeys Hfills; [done|]. simpl.
  destruct (inherit_template_fills raw d key Hkeys Hfills) as [Hkeys' Hfills'].
  by apply IH.
Qed.

End template_table.

(** X13: the table of templates holds every template once, under its name,
    which is not empty.  The inheritance pass that follows the collection
    keeps the keys and their order, and in every entry the name, the
    reference, the parent and each of description, data type and default
    value that the template fills itself: it fills empty fields only. *)
Theorem build_templates_table (root : Elem) :
  map fst (build_templates root) = map fst (raw_templates root) /\
  NoDup (map fst (build_templates root)) /\
  (forall name filled,
     dict_get name (build_templates root) = Some filled ->
     name <> "" /\ tpl_name filled = name /\
     exists template_data,
       dict_get name (raw_templates root) = Some template_data /\
       fills template_data filled).
Proof.
  destruct (collect_templates_named (List.filter (tag_has "template") (children root)))
    as [Hnodup Hnamed].
  destruct (fold_inherit_template_fills (raw_templates root) (raw_templates root)
              (map fst (raw_templates root)) eq_refl) as [Hkeys Hfills].
  { intros name t' Ht'. exists t'. split; [done|apply fills_refl]. }
  split; [exact Hkeys|]. split.
  - unfold build_templates. fold (raw_templates root). by rewrite Hkeys.
  - intros name filled Hfilled. destruct (Hfills name filled Hfilled) as (t & Ht & Hfill).
    destruct (Hnamed name t Ht) as [Hname Hne].
    split; [done|]. split; [|eauto]. destruct Hfill as [Hn _]. by rewrite Hn.
Qed.

Example build_templates_ex :
  dict_get "Child" (build_templates templated_root)
  = Some (mkTemplate "Child" "" "Base" "A counter." "unsignedInt" "").
Proof. vm_compute. reflexivity. Qed.

(** ** Documentation index *)

Section documentation_index.

Lemma dict_set_Forall {V} (P : string * V -> Prop) (key : string) (v : V)
    (d : list (string * V)) :
  Forall P d -> P (key, v) -> Forall P (dict_set key v d).
Proof.
  intros Hd Hv. induction Hd as [|[k w] d Hkw Hd IH]; simpl.
  - constructor; [done|constructor].
  - destruct (decide (k = key)) as [->|Hk].
    + rewrite bool_decide_eq_true_2 by done. by constructor.
    + rewrite bool_decide_eq_false_2 by done. by constructor.
Qed.

Lemma dict_get_Forall {V} (P : string * V -> Prop) (key : string) (v : V)
    (d : list (string * V)) :
  Forall P d -> dict_get key d = Some v -> P (key, v).
Proof.
  unfold dict_get. intros Hd. induction Hd as [|[k w] d Hkw _ IH]; [done|]. simpl.
  destruct (decide (k = key)) as [->|Hk].
  - rewrite bool_decide_eq_true_2 by done. simpl. by intros [= <-].
  - by rewrite bool_decide_eq_false_2.
Qed.

Lemma normalize_path_fixed (path : string) :
  normalize_path (normalize_path path) = normalize_path path.
Proof.
  unfold normalize_path at 1.
  rewrite lower_id by (unfold normalize_path, Py.strip_by;
                       apply rstrip_all, lstrip_all, remove_space_all, lower_fixed).
  rewrite remove_space_id by (unfold normalize_path, Py.strip_by;
                              apply rstrip_all, lstrip_all, remove_space_free).
  apply strip_idem.
Qed.

Lemma dict_set_indexed (path description : string)
    (html_descriptions : list (string * string)) :
  indexed html_descriptions -> Py.truthy description = true ->
  indexed (dict_set (normalize_path path) description html_descriptions).
Proof.
  intros [Hnodup Hall] Hdescription. split; [by apply dict_set_NoDup|].
  apply dict_set_Forall; [done|]. simpl. split; [apply normalize_path_fixed|].
  intros ->. done.
Qed.

Lemma index_row_indexed (desc_index : nat) (state : list (string * string) * string)
    (tr : HtmlRow) :
  indexed state.1 -> indexed (index_row desc_index state tr).1.
Proof.
  destruct state as [html_descriptions last_object_path]. simpl. intros Hindexed.
  destruct (_ || _); [done|].
  destruct (row_cells tr) as [|first_cell cells]; [done|].
  destruct (negb (Py.truthy (cell_text first_cell))); [done|].
  destruct (_ || _); [done|].
  destruct (Py.in_list "object" (row_classes tr)).
  - simpl. destruct (Py.truthy (extract_description _ _)) eqn:Hd; [|done].
    by apply dict_set_indexed.
  - destruct (negb (Py.truthy last_object_path)); [done|]. simpl.
    destruct (Py.truthy (extract_description _ _)) eqn:Hd; [|done].
    by apply dict_set_indexed.
Qed.

Lemma build_index_indexed (desc_index : nat) (rows : list HtmlRow) :
  indexed (build_index desc_index rows).
Proof.
  unfold build_index.
  assert (forall state, indexed state.1 ->
                        indexed (fold_left (index_row desc_index) rows state).1) as Hfold.
  { induction rows as [|tr rows IH]; intros state Hstate; [done|]. simpl.
    by apply IH, index_row_indexed. }
  apply Hfold. split; [constructor|constructor].
Qed.

End documentation_index.

(** X14: in the index that [main] builds from the rows of the
    documentation table no key stands twice, every key is a normalised path,
    so that normalising it again gives the key itself, and no description is
    empty. *)
Theorem build_index_normalised (desc_index : nat) (rows : list HtmlRow) :
  NoDup (map fst (build_index desc_index rows)) /\
  (forall key description,
     dict_get key (build_index desc_index rows) = Some description ->
     normalize_path key = key /\ description <> "").
Proof.
  destruct (build_index_indexed desc_index rows) as [Hnodup Hall].
  split; [done|]. intros key description Hget.
  by apply (dict_get_Forall _ key description _ Hall).
Qed.

Example build_index_ex :
  build_index 1 radio_rows
  = [ ("device.wifi.radio.{i}", "The radio table.");
      ("device.wifi.radio.{i}.channel", "The channel.") ].
Proof. vm_compute. reflexivity. Qed.

(** X15: with the index that [main] builds, a parameter whose normalised
    full path is a key of the index is described by the entry of that key:
    the entry is not empty, so neither the embedded description nor a
    template nor a reference takes its place. *)
Theorem documented_description (desc_index : nat) (rows : list HtmlRow) (budget : nat)
    (param_elem : Elem) (parent_object_name : string)
    (references_dict : gmap string string) (templates_dict : list (string * Template))
    (xml_root : Elem) (final : ParamData) (d : string) :
  extract_parameter_data budget param_elem parent_object_name references_dict
    templates_dict (build_index desc_index rows) xml_root = Ok final ->
  dict_get (normalize_path (full_path_of param_elem parent_object_name))
    (build_index desc_index rows) = Some d ->
  Description final = d /\ d <> "".
Proof.
  intros Hfinal Hd.
  destruct (build_index_indexed desc_index rows) as [_ Hall].
  destruct (dict_get_Forall _ _ d _ Hall Hd) as [_ Hne]. simpl in Hne.
  split; [|done].
  unfold extract_parameter_data in Hfinal.
  destruct (typed_parameter _ _ _ _ _) as [typed|] eqn:Htyped; [|done].
  simpl in Hfinal.
  assert (Description typed = d) as Htyped_d.
  { unfold typed_parameter in Htyped. apply process_syntaxes_Description in Htyped.
    rewrite Htyped. simpl. by apply lookup_exact. }
  assert (exists template_data,
            template_of budget param_elem templates_dict = Ok template_data)
    as [template_data Htemplate].
  { unfold template_of. unfold apply_template in Hfinal.
    destruct (Py.truthy (get_or_empty param_elem "template")); [|eauto].
    destruct (extract_template_data _ _ _); [eauto|done]. }
  destruct (extract_parameter_data_overlays budget param_elem parent_object_name
              references_dict templates_dict (build_index desc_index rows) xml_root
              typed template_data Htyped Htemplate) as (final' & Hfinal' & Hdesc & _).
  unfold extract_parameter_data in Hfinal'. rewrite Htyped in Hfinal'. simpl in Hfinal'.
  rewrite Hfinal in Hfinal'. injection Hfinal' as <-.
  rewrite Hdesc, Htyped_d. apply first_nonempty_head. by apply truthy_true.
Qed.

(** X15 at [templated_parameter], documented under its path: the entry
    stays although the parameter embeds a description and names a template
    with one. *)
Lemma documented_description_witness :
  exists final,
    extract_parameter_data 2 templated_parameter "Device." ∅ nested_templates
      (build_index 1 [ mkHtmlRow ["object"] [mkHtmlCell "Device" ""; mkHtmlCell "" ""];
                       mkHtmlRow ["parameter"]
                         [mkHtmlCell "Count" ""; mkHtmlCell "" "Documented."] ])
      empty_root = Ok final /\
    Description final = "Documented.".
Proof.
  eexists. split; [vm_compute; reflexivity|].
  eapply (documented_description 1
            [ mkHtmlRow ["object"] [mkHtmlCell "Device" ""; mkHtmlCell "" ""];
              mkHtmlRow ["parameter"] [mkHtmlCell "Count" ""; mkHtmlCell "" "Documented."] ]
            2 templated_parameter "Device." ∅ nested_templates empty_root).
  - vm_compute. reflexivity.
  - vm_compute. reflexivity.
Defined.

(** ** Order of the rows *)

Section row_order.

Lemma grouped_app (current : option string) (rows more : list Row) :
  grouped current rows -> grouped (last_object current rows) more ->
  grouped current (rows ++ more).
Proof.
  induction 1 as [current|current obj_data rows Hrows IH|name param_data rows Hname Hrows IH];
    simpl; intros Hmore.
  - done.
  - constructor. by apply IH.
  - constructor; [done|]. by apply IH.
Qed.

Lemma last_object_app (current : option string) (rows more : list Row) :
  last_object current (rows ++ more) = last_object (last_object current rows) more.
Proof.
  revert current. induction rows as [|[obj_data|param_data] rows IH]; intros current;
    simpl; [done|apply IH|apply IH].
Qed.

Lemma process_parameters_grouped (budget : nat) (parameters_found : list Elem)
    (object_name : string) (references : gmap string string)
    (templates : list (string * Template)) (html_descriptions : list (string * string))
    (root : Elem) (all_data : list Row) :
  grouped None all_data -> last_object None all_data = Some object_name ->
  grouped None
    (process_parameters budget parameters_found object_name references templates
       html_descriptions root all_data).1 /\
  last_object None
    (process_parameters budget parameters_found object_name references templates
       html_descriptions root all_data).1 = Some object_name.
Proof.
  revert all_data. induction parameters_found as [|e l IH]; intros all_data Hall Hlast;
    [done|].
  simpl. destruct (extract_parameter_data _ _ _ _ _ _ _) as [p|] eqn:Hp; [|done].
  apply IH.
  - destruct (_ || _); [done|]. destruct (_ || _); [done|].
    apply grouped_app; [done|]. rewrite Hlast.
    constructor; [|constructor].
    apply extract_parameter_data_head in Hp. unfold record_head in Hp.
    by injection Hp as -> _ _ _ _ _.
  - destruct (_ || _); [done|]. destruct (_ || _); [done|].
    by rewrite last_object_app, Hlast.
Qed.

Lemma process_objects_grouped (budget : nat) (objects_found : list Elem)
    (references : gmap string string) (templates : list (string * Template))
    (html_descriptions : list (string * string)) (root : Elem) (all_data : list Row) :
  grouped None all_data ->
  grouped None
    (process_objects budget objects_found references templates html_descriptions root
       all_data).1.
Proof.
  revert all_data. induction objects_found as [|e l IH]; intros all_data Hall; [done|].
  simpl. destruct (_ || _); [by apply IH|].
  destruct (process_parameters_grouped budget
              (List.filter (tag_has "parameter") (children e))
              (obj_Object_Name (extract_object_data e html_descriptions)) references
              templates html_descriptions root
              (all_data ++ [ObjectRow (extract_object_data e html_descriptions)]))
    as [Hgrouped _].
  { apply grouped_app; [done|]. constructor. constructor. }
  { by rewrite last_object_app. }
  destruct (process_parameters _ _ _ _ _ _ _ _) as [rows [|]]; simpl in *; [done|].
  by apply IH.
Qed.

End row_order.

(** X16: the rows of [process_xml_file] are grouped by object: the first
    row, if there is one, is an object row, and every parameter row carries
    the name of the object row that comes last before it. *)
Theorem process_xml_file_grouped (budget : nat) (root : Elem)
    (html_descriptions : list (string * string)) :
  grouped None (process_xml_file budget root html_descriptions).
Proof.
  unfold process_xml_file.
  destruct (head (List.filter (tag_has "model") (children root))); [|constructor].
  apply process_objects_grouped. constructor.
Qed.

(** ** Paths with the same key *)

(** X17: paths that differ in upper and lower case or in a dot in front
    have the same key: normalising the lower-cased path, or the path behind
    a dot, gives what normalising the path gives. *)
Theorem normalize_path_same_key (path : string) :
  normalize_path (Py.lower path) = normalize_path path /\
  normalize_path ("." +:+ path) = normalize_path path.
Proof.
  unfold normalize_path. split.
  - by rewrite (lower_id (Py.lower path)) by apply lower_fixed.
  - change (Py.lower ("." +:+ path)) with (String "." (Py.lower path)).
    by rewrite remove_space_step.
Qed.
